(** * The field-data pipeline of [Integrated project 5]

    A shallow embedding of [data_ingestion.py] and [field_data_processor.py]:
    the pandas frame the pipeline mutates, the exceptions it raises, the
    instance state of [FieldDataProcessor], and its four steps. *)

From Stdlib Require Import ZArith String.
From stdpp Require Import base option list strings gmap.

Local Open Scope Z_scope.

(** ** Cells, series and frames *)

(** A cell of a frame.  [VStr] is a text cell.  [VNum z] is an integer cell:
    an int64 of an integer column, a Python [int] of an object column.
    [VFloat z] is a float64 cell whose value is the whole number [z]; the
    pipeline takes absolute values and compares keys, neither of which makes
    a fraction out of whole numbers, so floats with a fractional part are
    left out.  [VNull] is NaN, the missing-value marker of a float column and
    the filler of a join.  Python's [None], which an object column can hold
    and on which [abs] raises, is not a cell: the statements about the sign
    correction take the return of the call as a hypothesis. *)
Inductive value : Type :=
  | VNull
  | VNum (z : Z)
  | VStr (s : string)
  | VFloat (z : Z).

#[global] Instance value_eq_dec : EqDecision value.
Proof. solve_decision. Defined.

(** A pandas Series: one column of cells. *)
Abbreviation Series := (list value) (only parsing).

(** The dtype of a column is read off its cells, as pandas infers it when it
    reads a table: integers of the 64-bit range only make an int64 column,
    floats and NaN only a float64 column, anything else an object column. *)
Definition int64_min : Z := - 2 ^ 63.
Definition int64_max : Z := 2 ^ 63 - 1.

Definition is_int64 (s : Series) : bool :=
  forallb (λ v, match v with
                | VNum z => bool_decide (int64_min ≤ z ≤ int64_max)
                | _ => false
                end) s.

Definition is_float64 (s : Series) : bool :=
  forallb (λ v, match v with VFloat _ | VNull => true | _ => false end) s.

(** The float64 nearest to the whole number [z], ties going to the even
    mantissa: what [astype(float64)] makes of an int64.  Whole numbers of
    size up to [2^53] are kept; beyond, the 53 leading bits are. *)
Definition to_float64 (z : Z) : Z :=
  if decide (Z.abs z ≤ 2 ^ 53) then z
  else
    let ulp := 2 ^ (Z.log2 (Z.abs z) - 52) in
    let q := Z.abs z / ulp in
    let r := Z.abs z mod ulp in
    let q' := if decide (2 * r < ulp) then q
              else if decide (ulp < 2 * r) then q + 1
              else if Z.even q then q else q + 1 in
    Z.sgn z * (q' * ulp).

(** A frame, column-major as pandas keeps it: [index] is the length of the
    row index, [data] the labelled columns in order.  Labels may repeat. *)
Record DataFrame : Type := mkDataFrame {
  index : nat;
  data : list (string * Series)
}.

(** [df.columns] *)
Definition columns (df : DataFrame) : list string := (data df).*1.

(** [df.empty]: some axis has length 0. *)
Definition empty (df : DataFrame) : bool :=
  bool_decide (index df = 0%nat) || bool_decide (data df = []).

(** Every column is as long as the index. *)
Definition wf (df : DataFrame) : Prop :=
  Forall (λ c : string * Series, length c.2 = index df) (data df).

(** The cell in row [i] of the [j]-th column. *)
Definition cell (df : DataFrame) (i j : nat) : option value :=
  c ← data df !! j; c.2 !! i.

(** [df[label]]: the columns carrying [label], in order.  pandas raises
    [KeyError] when there is none, answers a Series when there is one and a
    sub-frame when there are several. *)
Definition getitem (label : string) (df : DataFrame) : list Series :=
  (filter (λ c : string * Series, c.1 = label) (data df)).*2.

(** [df[label] = new] for a label already present and [new] of the shape
    [df[label]] has: the columns carrying [label] take the new data in order
    and keep their place. *)
Fixpoint setitem_data (label : string) (new : list Series)
    (d : list (string * Series)) : list (string * Series) :=
  match d with
  | [] => []
  | c :: d' =>
      if decide (c.1 = label) then
        match new with
        | s :: new' => (c.1, s) :: setitem_data label new' d'
        | [] => c :: d'
        end
      else c :: setitem_data label new d'
  end.

Definition setitem (label : string) (new : list Series) (df : DataFrame) : DataFrame :=
  {| index := index df; data := setitem_data label new (data df) |}.

(** [df.rename(columns=mapper)]: every label that is a key of [mapper] is
    replaced, the others are kept (pandas ignores keys that name no column);
    the data is not touched. *)
Definition rename (mapper : gmap string string) (df : DataFrame) : DataFrame :=
  {| index := index df;
     data := (λ c : string * Series, (default c.1 (mapper !! c.1), c.2)) <$> data df |}.

(** ** Exceptions, the outside world, and the instance state *)

Inductive exn : Type :=
  | ValueError (msg : string)
  | KeyError (key : string)
  | TypeError (msg : string)
  | AttributeError (msg : string)
  | IndexError (msg : string)
  | UnboundLocalError (name : string)
  | ImportError (msg : string)
  | EmptyDataError (msg : string)
  | OtherError (cls msg : string).

#[global] Instance exn_eq_dec : EqDecision exn.
Proof. solve_decision. Defined.

(** A SQLAlchemy engine is identified by the URL it was made from. *)
Definition Engine : Type := string.

(** The collaborators the repository calls but does not define: SQLAlchemy,
    the database behind it, the web server, and pandas' parsers. *)
Record World : Type := mkWorld {
  (** [create_engine(db_path)] *)
  sqlalchemy_create_engine : string → exn + Engine;
  (** [engine.connect()] *)
  engine_connect : Engine → option exn;
  (** [pd.read_sql_query(text(sql), connection)] *)
  pd_read_sql_query : string → Engine → exn + DataFrame;
  (** the body served at a URL *)
  http_body : string → exn + string;
  (** pandas' CSV parser on a non-empty body *)
  csv_parse : string → exn + DataFrame
}.

Inductive logger_name : Type := ModuleLogger | InstanceLogger.

Inductive log_record : Type :=
  | LogInfo (who : logger_name) (msg : string)
  | LogError (who : logger_name) (msg : string) (e : option exn).

(** [self] of [FieldDataProcessor], with the calls made on the two loggers
    kept in [trace] (oldest first). *)
Record FieldDataProcessor : Type := mkProcessor {
  db_path : string;
  sql_query : string;
  columns_to_rename : list (string * string);
  values_to_rename : gmap string string;
  weather_map_data : string;
  df : option DataFrame;
  engine : option Engine;
  trace : list log_record
}.

(** The configuration bundle; [columns_to_rename] is a dict whose insertion
    order the code reads, hence an association list. *)
Record config_params : Type := mkConfig {
  cfg_sql_query : string;
  cfg_db_path : string;
  cfg_columns_to_rename : list (string * string);
  cfg_values_to_rename : gmap string string;
  cfg_weather_mapping_csv : string
}.

(** [FieldDataProcessor.__init__].  Its [logging_level] argument only sets
    the level and handler of the instance logger; [trace] records the calls
    made on the loggers, which do not depend on it. *)
Definition init (cfg : config_params) : FieldDataProcessor :=
  {| db_path := cfg_db_path cfg;
     sql_query := cfg_sql_query cfg;
     columns_to_rename := cfg_columns_to_rename cfg;
     values_to_rename := cfg_values_to_rename cfg;
     weather_map_data := cfg_weather_mapping_csv cfg;
     df := None;
     engine := None;
     trace := [] |}.

(** ** A state-and-exception monad for the methods *)

Inductive outcome (A : Type) : Type :=
  | Return (a : A)
  | Raise (e : exn)
  | Diverge.
Arguments Return {A} a.
Arguments Raise {A} e.
Arguments Diverge {A}.

Definition M (A : Type) : Type := FieldDataProcessor → outcome A * FieldDataProcessor.

Definition ret {A} (a : A) : M A := λ s, (Return a, s).

Definition bind {A B} (m : M A) (k : A → M B) : M B :=
  λ s, match m s with
       | (Return a, s') => k a s'
       | (Raise e, s') => (Raise e, s')
       | (Diverge, s') => (Diverge, s')
       end.

Definition raise {A} (e : exn) : M A := λ s, (Raise e, s).

(** [try: body except Exception as e: handler e] *)
Definition try_except {A} (body : M A) (handler : exn → M A) : M A :=
  λ s, match body s with
       | (Raise e, s') => handler e s'
       | r => r
       end.

Definition get_self : M FieldDataProcessor := λ s, (Return s, s).

Notation "'letM' x ':=' m 'in' k" := (bind m (λ x, k))
  (at level 10, x name, m at level 100, k at level 200, only parsing).

Definition lift {A} (r : exn + A) : M A :=
  match r with inl e => raise e | inr a => ret a end.

(** Assignments to the attributes of [self]. *)
Definition with_df (t : DataFrame) (s : FieldDataProcessor) : FieldDataProcessor :=
  {| db_path := db_path s; sql_query := sql_query s;
     columns_to_rename := columns_to_rename s;
     values_to_rename := values_to_rename s;
     weather_map_data := weather_map_data s;
     df := Some t; engine := engine s; trace := trace s |}.

Definition with_engine (e : Engine) (s : FieldDataProcessor) : FieldDataProcessor :=
  {| db_path := db_path s; sql_query := sql_query s;
     columns_to_rename := columns_to_rename s;
     values_to_rename := values_to_rename s;
     weather_map_data := weather_map_data s;
     df := df s; engine := Some e; trace := trace s |}.

Definition with_record (r : log_record) (s : FieldDataProcessor) : FieldDataProcessor :=
  {| db_path := db_path s; sql_query := sql_query s;
     columns_to_rename := columns_to_rename s;
     values_to_rename := values_to_rename s;
     weather_map_data := weather_map_data s;
     df := df s; engine := engine s; trace := trace s ++ [r] |}.

(** A call on one of the loggers. *)
Definition log (r : log_record) : M unit := λ s, (Return tt, with_record r s).

(** [self.df = t] *)
Definition set_df (t : DataFrame) : M unit := λ s, (Return tt, with_df t s).

(** [self.engine = e] *)
Definition set_engine (e : Engine) : M unit := λ s, (Return tt, with_engine e s).

(** A use of [self.df]; it is [None] until ingestion has run, and [None]
    has no attributes and no items. *)
Inductive df_use : Type :=
  | Attribute (name : string)
  | Subscript
  | ItemAssignment.

Definition none_error (u : df_use) : exn :=
  match u with
  | Attribute name =>
      AttributeError ("'NoneType' object has no attribute '" +:+ name +:+ "'")
  | Subscript => TypeError "'NoneType' object is not subscriptable"
  | ItemAssignment => TypeError "'NoneType' object does not support item assignment"
  end.

Definition self_df (u : df_use) : M DataFrame :=
  letM s := get_self in
  match df s with
  | Some t => ret t
  | None => raise (none_error u)
  end.

(** ** [rename_columns] *)

(** The loop [while temp_name in self.df.columns: temp_name += "_"]. *)
Fixpoint temp_name_loop (fuel : nat) (cols : list string) (temp_name : string)
    : option string :=
  match fuel with
  | O => None
  | S fuel' =>
      if bool_decide (temp_name ∈ cols)
      then temp_name_loop fuel' cols (temp_name +:+ "_")
      else Some temp_name
  end.

Definition rename_columns : M unit :=
  letM self := get_self in
  letM cs := match columns_to_rename self with
       | (k, v) :: _ => ret (k, v)
       | [] => raise (IndexError "list index out of range")
       end in
  let column1 := cs.1 in
  let column2 := cs.2 in
  letM _ := log (LogInfo InstanceLogger ("Swapped columns: " +:+ column1 +:+ " with " +:+ column2)) in
  letM t := self_df (Attribute "columns") in
  match temp_name_loop (S (length (columns t))) (columns t) "__temp_name_for_swap__" with
  | None => λ s, (Diverge, s)
  | Some temp_name =>
      letM t := self_df (Attribute "rename") in
      letM _ := set_df (rename (<[column2 := column1]> {[column1 := temp_name]}) t) in
      letM t := self_df (Attribute "rename") in
      set_df (rename {[temp_name := column2]} t)
  end.

(** ** [apply_corrections] *)

(** Python's [abs] on one cell, exact on a Python [int] and on a float: NaN
    stays NaN, text has no absolute value. *)
Definition abs_cell (v : value) : option value :=
  match v with
  | VNull => Some VNull
  | VNum z => Some (VNum (Z.abs z))
  | VFloat z => Some (VFloat (Z.abs z))
  | VStr _ => None
  end.

(** [numpy.abs] on one int64: the absolute value of the least 64-bit integer
    does not fit and wraps around to that integer again. *)
Definition int64_abs (v : value) : value :=
  match v with
  | VNum z => VNum (if decide (z = int64_min) then z else Z.abs z)
  | _ => v
  end.

(** [Series.abs()]: [numpy.abs] on the whole array of an int64 column,
    cell by cell on the others. *)
Definition series_abs (s : Series) : option Series :=
  if is_int64 s then Some (int64_abs <$> s) else mapM abs_cell s.

(** [d.get(key, dflt)] on a dict whose keys are strings. *)
Definition dict_get (d : gmap string string) (key dflt : value) : value :=
  match key with
  | VStr s => match d !! s with Some s' => VStr s' | None => dflt end
  | _ => dflt
  end.

(** [Series.apply(f)] *)
Definition series_apply (f : value → value) (s : Series) : Series := f <$> s.

(** The first statement of [apply_corrections]:
    [self.df[abs_column] = self.df[abs_column].abs()]. *)
Definition correct_sign (abs_column : string) : M unit :=
  letM t := self_df Subscript in
  match getitem abs_column t with
  | [] => raise (KeyError abs_column)
  | sel =>
      match mapM series_abs sel with
      | None => raise (TypeError "bad operand type for abs(): 'str'")
      | Some sel' =>
          letM t' := self_df ItemAssignment in
          set_df (setitem abs_column sel' t')
      end
  end.

(** The second statement:
    [self.df[column_name] = self.df[column_name].apply(lambda crop: self.values_to_rename.get(crop, crop))].
    On a sub-frame (a repeated label) [apply] hands whole columns to the
    lambda, which cannot hash them; a frame without rows is handed back as
    it is. *)
Definition correct_spelling (column_name : string) : M unit :=
  letM self := get_self in
  letM t := self_df Subscript in
  match getitem column_name t with
  | [] => raise (KeyError column_name)
  | [s] =>
      let s' := series_apply (λ crop, dict_get (values_to_rename self) crop crop) s in
      letM t' := self_df ItemAssignment in
      set_df (setitem column_name [s'] t')
  | sel =>
      if decide (index t = 0%nat) then
        letM t' := self_df ItemAssignment in
        set_df (setitem column_name sel t')
      else raise (TypeError "unhashable type: 'Series'")
  end.

(** [apply_corrections(self, column_name='Crop_type', abs_column='Elevation')];
    an argument the caller leaves out is [None] here and takes its default. *)
Definition apply_corrections (column_name abs_column : option string) : M unit :=
  let column_name := default "Crop_type" column_name in
  let abs_column := default "Elevation" abs_column in
  letM _ := correct_sign abs_column in
  correct_spelling column_name.

(** ** [DataFrame.merge(right, on=..., how="left")] *)

(** The merge compares the keys of two columns of one dtype as they are.
    When one key column is int64 and the other float64, it first converts
    both to their common dtype, float64. *)
Definition float_keys (lk rk : Series) : bool :=
  (is_int64 lk && is_float64 rk) || (is_float64 lk && is_int64 rk).

(** A key as the merge compares it: an int64 converted when [as_float] is
    set; in an object column an [int] and a float of the same value are the
    same key. *)
Definition key_norm (as_float : bool) (k : value) : value :=
  match k with
  | VNum z => VNum (if as_float then to_float64 z else z)
  | VFloat z => VNum z
  | _ => k
  end.

(** The positions of [k] in a key column. *)
Definition positions (as_float : bool) (k : value) (s : Series) : list nat :=
  (filter (λ p : nat * value, key_norm as_float p.2 = key_norm as_float k)
     (imap pair s)).*1.

(** The result rows the left row [i] with key [k] gives: one per right row
    with an equal key, or a single unmatched one (missing keys match each
    other, as in pandas). *)
Definition row_matches (as_float : bool) (rk : Series) (i : nat) (k : value) :
    list (nat * option nat) :=
  match positions as_float k rk with
  | [] => [(i, None)]
  | js => (λ j, (i, Some j)) <$> js
  end.

(** The left and right row behind every result row; left order is kept. *)
Definition left_join_indexer (as_float : bool) (lk rk : Series) : list (nat * option nat) :=
  mjoin (imap (row_matches as_float rk) lk).

Definition take_left (ix : list (nat * option nat)) (s : Series) : Series :=
  (λ p : nat * option nat, default VNull (s !! p.1)) <$> ix.

(** Some result row has no right row behind it. *)
Definition unmatched (ix : list (nat * option nat)) : bool :=
  existsb (λ p : nat * option nat, bool_decide (p.2 = None)) ix.

(** An int64 cell in a column that has become float64. *)
Definition float_cell (v : value) : value :=
  match v with
  | VNum z => VFloat (to_float64 z)
  | _ => v
  end.

(** A right column in the result.  An unmatched row is filled with NaN, which
    an int64 column cannot hold: such a column becomes float64. *)
Definition take_right (ix : list (nat * option nat)) (s : Series) : Series :=
  (λ p : nat * option nat,
     match p.2 with
     | Some j =>
         let v := default VNull (s !! j) in
         if unmatched ix && is_int64 s then float_cell v else v
     | None => VNull
     end) <$> ix.

(** The columns of the result: the left columns, then the right columns
    without the key; a label both sides carry gets [_x] or [_y]. *)
Definition merge_left_columns (on : string) (ix : list (nat * option nat))
    (left right : DataFrame) : list (string * Series) :=
  (λ c : string * Series,
     (if decide (c.1 ≠ on ∧ c.1 ∈ columns right) then c.1 +:+ "_x" else c.1,
      take_left ix c.2)) <$> data left.

Definition merge_right_columns (on : string) (ix : list (nat * option nat))
    (left right : DataFrame) : list (string * Series) :=
  (λ c : string * Series,
     (if decide (c.1 ∈ columns left) then c.1 +:+ "_y" else c.1,
      take_right ix c.2)) <$> filter (λ c : string * Series, c.1 ≠ on) (data right).

(** pandas refuses some further inputs (key columns of incompatible dtypes,
    suffixed labels that collide); those refusals are not modelled, so the
    model succeeds at least where pandas does. *)
Definition merge_left (left right : DataFrame) (on : string) : exn + DataFrame :=
  match getitem on right, getitem on left with
  | [], _ | _, [] => inl (KeyError on)
  | [rk], [lk] =>
      let ix := left_join_indexer (float_keys lk rk) lk rk in
      inr {| index := length ix;
             data := merge_left_columns on ix left right
                     ++ merge_right_columns on ix left right |}
  | _, _ => inl (ValueError ("The column label '" +:+ on +:+ "' is not unique."))
  end.

(** ** [data_ingestion.py] and the methods that call it *)

Section Pipeline.
Variable w : World.

Definition create_db_engine (db_path : string) : M Engine :=
  try_except
    (letM engine := lift (sqlalchemy_create_engine w db_path) in
     letM _ := match engine_connect w engine with
               | Some e => raise e
               | None => ret tt
               end in
     letM _ := log (LogInfo ModuleLogger "Database engine created successfully.") in
     ret engine)
    (λ e,
       match e with
       | ImportError _ =>
           letM _ := log (LogError ModuleLogger
             "SQLAlchemy is required to use this function. Please install it first." None) in
           raise (UnboundLocalError "e")
       | _ =>
           letM _ := log (LogError ModuleLogger
             "Failed to create database engine. Error: " (Some e)) in
           raise e
       end).

Definition query_data (engine : Engine) (sql_query : string) : M DataFrame :=
  try_except
    (letM _ := match engine_connect w engine with
               | Some e => raise e
               | None => ret tt
               end in
     letM df := lift (pd_read_sql_query w sql_query engine) in
     if empty df then
       let msg := "The query returned an empty DataFrame." in
       letM _ := log (LogError ModuleLogger msg None) in
       raise (ValueError msg)
     else
       letM _ := log (LogInfo ModuleLogger "Query executed successfully.") in
       ret df)
    (λ e,
       match e with
       | ValueError _ =>
           letM _ := log (LogError ModuleLogger "SQL query failed. Error: " (Some e)) in
           raise e
       | _ =>
           letM _ := log (LogError ModuleLogger
             "An error occurred while querying the database. Error: " (Some e)) in
           raise e
       end).

(** [pd.read_csv(URL)]: an empty body has no columns to parse. *)
Definition pd_read_csv (URL : string) : exn + DataFrame :=
  match http_body w URL with
  | inl e => inl e
  | inr body =>
      if decide (body = "") then inl (EmptyDataError "No columns to parse from file")
      else csv_parse w body
  end.

Definition read_from_web_CSV (URL : string) : M DataFrame :=
  try_except
    (letM df := lift (pd_read_csv URL) in
     letM _ := log (LogInfo ModuleLogger "CSV file read successfully from the web.") in
     ret df)
    (λ e,
       match e with
       | EmptyDataError _ =>
           letM _ := log (LogError ModuleLogger
             "The URL does not point to a valid CSV file. Please check the URL and try again."
             None) in
           raise e
       | _ =>
           letM _ := log (LogError ModuleLogger
             "Failed to read CSV from the web. Error: " (Some e)) in
           raise e
       end).

Definition ingest_sql_data : M DataFrame :=
  try_except
    (letM self := get_self in
     letM engine := create_db_engine (db_path self) in
     letM _ := set_engine engine in
     letM self := get_self in
     letM t := query_data engine (sql_query self) in
     letM _ := set_df t in
     letM _ := log (LogInfo InstanceLogger "Successfully loaded data into the DataFrame.") in
     ret t)
    (λ e,
       letM _ := log (LogError InstanceLogger "Failed to ingest SQL data. Error: " (Some e)) in
       raise e).

Definition weather_station_mapping : M unit :=
  try_except
    (letM self := get_self in
     letM weather_mapping_df := read_from_web_CSV (weather_map_data self) in
     letM t := self_df (Attribute "merge") in
     letM merged := lift (merge_left t weather_mapping_df "Field_ID") in
     letM _ := set_df merged in
     log (LogInfo InstanceLogger
       "Successfully merged weather station mapping data into the main DataFrame."))
    (λ e,
       letM _ := log (LogError InstanceLogger
         "Failed to merge weather station mapping data. Error: " (Some e)) in
       raise e).

Definition process : M unit :=
  try_except
    (letM _ := log (LogInfo InstanceLogger "Starting the data processing pipeline.") in
     letM _ := ingest_sql_data in
     letM _ := log (LogInfo InstanceLogger "Renaming columns...") in
     letM _ := rename_columns in
     letM _ := log (LogInfo InstanceLogger "Applying data corrections...") in
     letM _ := apply_corrections None None in
     letM _ := log (LogInfo InstanceLogger "Mapping weather station data...") in
     letM _ := weather_station_mapping in
     log (LogInfo InstanceLogger "Data processing pipeline completed successfully."))
    (λ e,
       letM _ := log (LogError InstanceLogger
         "Error occurred during the data processing pipeline: " (Some e)) in
       raise e).

End Pipeline.

(** ** The shipped configuration ([config_params.py]) and sample data *)

Definition shipped_config : config_params :=
  {| cfg_sql_query := "SELECT * FROM geographic_features LEFT JOIN weather_features USING (Field_ID) LEFT JOIN soil_and_crop_features USING (Field_ID) LEFT JOIN farm_management_features USING (Field_ID)";
     cfg_db_path := "sqlite:///Maji_Ndogo_farm_survey_small.db";
     cfg_columns_to_rename :=
       [("Annual_yield", "Crop_type"); ("Crop_type", "Annual_yield")];
     cfg_values_to_rename :=
       <["cassaval" := "cassava"]> (<["wheatn" := "wheat"]> {["teaa" := "tea"]});
     cfg_weather_mapping_csv :=
       "https://raw.githubusercontent.com/Explore-AI/Public-Data/master/Maji_Ndogo/Weather_data_field_mapping.csv" |}.

(** A three-field survey with the two labels swapped, one misspelt crop, one
    negative and one missing elevation; and a mapping that knows two of the
    three fields. *)
Definition survey : DataFrame :=
  {| index := 3;
     data := [("Field_ID", [VNum 1; VNum 2; VNum 3]);
              ("Elevation", [VNum (-5); VNum 7; VNull]);
              ("Annual_yield", [VStr "cassaval"; VStr "tea"; VStr "wheat"]);
              ("Crop_type", [VNum 10; VNum 20; VNum 30])] |}.

(** The survey once its two labels have been exchanged. *)
Definition labelled_survey : DataFrame :=
  {| index := 3;
     data := [("Field_ID", [VNum 1; VNum 2; VNum 3]);
              ("Elevation", [VNum (-5); VNum 7; VNull]);
              ("Crop_type", [VStr "cassaval"; VStr "tea"; VStr "wheat"]);
              ("Annual_yield", [VNum 10; VNum 20; VNum 30])] |}.

Definition station_map : DataFrame :=
  {| index := 2;
     data := [("Field_ID", [VNum 1; VNum 2]);
              ("Weather_station", [VNum 4; VNum 0])] |}.

(** A world in which the database answers [t] and the mapping URL serves a
    body that parses to [m]. *)
Definition world_of (t m : DataFrame) : World :=
  {| sqlalchemy_create_engine := λ url, inr url;
     engine_connect := λ _, None;
     pd_read_sql_query := λ _ _, inr t;
     http_body := λ _, inr "Field_ID,Weather_station";
     csv_parse := λ _, inr m |}.

(** ** Vocabulary of the statements *)

(** Exchanging two labels, as the specification describes the effect of
    [rename_columns]; used to state what the two [rename] calls amount to. *)
Definition swap_label (a b x : string) : string :=
  if decide (x = a) then b else if decide (x = b) then a else x.

Definition relabel (f : string → string) (t : DataFrame) : DataFrame :=
  {| index := index t; data := (λ c : string * Series, (f c.1, c.2)) <$> data t |}.


(** What [Series.abs()] makes of one cell: its absolute value or, in an
    int64 column, the least 64-bit integer again. *)
Definition abs_of (v v' : value) : Prop :=
  abs_cell v = Some v' ∨ (v = VNum int64_min ∧ v' = VNum int64_min).

(** A column without text cells. *)
Definition numeric (s : Series) : bool :=
  forallb (λ v, match v with VStr _ => false | _ => true end) s.

(** [M[v]] when [v] is a key of the correction map. *)
Definition lookup_value (M : gmap string string) (v : value) : option value :=
  match v with
  | VStr k => VStr <$> M !! k
  | _ => None
  end.

(** How a statement [df[label] = f(df[label])] relates the columns before
    and after: labels and places are kept, the columns carrying [label] are
    rewritten by [f], the others are left alone. *)
Definition rewrites (label : string) (f : Series → option Series)
    (d d' : list (string * Series)) : Prop :=
  Forall2 (λ c c' : string * Series,
             c'.1 = c.1 ∧
             if decide (c.1 = label) then f c.2 = Some c'.2 else c'.2 = c.2) d d'.

(** The instance after a call of [self.logger.info(msg)]. *)
Definition logged (msg : string) (s : FieldDataProcessor) : FieldDataProcessor :=
  with_record (LogInfo InstanceLogger msg) s.

(** The labels of at least [n] characters: the scratch-name loop can only
    collide with those once its name has [n] characters. *)
Definition at_least (n : nat) (cols : list string) : list string :=
  filter (λ c, (n ≤ String.length c)%nat) cols.

(** ** [initialize_logging] *)

(** The part of the [logging] module the method touches.  [getLogger] hands
    out one logger object per name, so every instance of the class works on
    the same [Logger]; it is threaded through explicitly. *)
Inductive Handler : Type := StreamHandler (formatter : string).

Record Logger : Type := mkLogger {
  propagate : bool;
  disabled : bool;
  level : Z;
  handlers : list Handler
}.

Definition DEBUG : Z := 10.
Definition INFO : Z := 20.

(** A logger as [getLogger] first creates it. *)
Definition new_logger : Logger :=
  {| propagate := true; disabled := false; level := 0; handlers := [] |}.

Section Logging.
(** [str.upper] *)
Variable str_upper : string → string.

(** [self.logger.setLevel(log_level)] and the guarded [addHandler]. *)
Definition set_level_and_handler (log_level : Z) (logger : Logger) : Logger :=
  let logger := {| propagate := propagate logger; disabled := disabled logger;
                   level := log_level; handlers := handlers logger |} in
  match handlers logger with
  | [] =>
      {| propagate := propagate logger; disabled := disabled logger;
         level := level logger;
         handlers := handlers logger
                     ++ [StreamHandler "%(asctime)s - %(name)s - %(levelname)s - %(message)s"] |}
  | _ :: _ => logger
  end.

Definition initialize_logging (logging_level : string) (logger : Logger) : Logger :=
  let logger := {| propagate := false; disabled := disabled logger;
                   level := level logger; handlers := handlers logger |} in
  if decide (str_upper logging_level = "DEBUG") then set_level_and_handler DEBUG logger
  else if decide (str_upper logging_level = "INFO") then set_level_and_handler INFO logger
  else if decide (str_upper logging_level = "NONE") then
    {| propagate := propagate logger; disabled := true;
       level := level logger; handlers := handlers logger |}
  else set_level_and_handler INFO logger.

End Logging.

(** [str.upper] as it acts on ASCII letters; other characters are left as
    they are.  Used to run [initialize_logging] on ASCII level names. *)
Definition ascii_upper (c : Ascii.ascii) : Ascii.ascii :=
  let n := Ascii.nat_of_ascii c in
  if (97 <=? n)%nat && (n <=? 122)%nat then Ascii.ascii_of_nat (n - 32) else c.

Fixpoint upper (s : string) : string :=
  match s with
  | EmptyString => EmptyString
  | String c s' => String (ascii_upper c) (upper s')
  end.

(** [n] underscores: what the scratch-name loop has appended after [n]
    rounds. *)
Fixpoint underscores (n : nat) : string :=
  match n with
  | O => ""
  | S n' => "_" +:+ underscores n'
  end.

(** [s'] differs from [s] at most by records appended to the log. *)
Definition only_logs (s s' : FieldDataProcessor) : Prop :=
  ∃ records, s' = {| db_path := db_path s; sql_query := sql_query s;
                     columns_to_rename := columns_to_rename s;
                     values_to_rename := values_to_rename s;
                     weather_map_data := weather_map_data s;
                     df := df s; engine := engine s;
                     trace := trace s ++ records |}.

(** A world whose engine cannot be made because a driver is not installed,
    and one whose mapping URL cannot be reached. *)
Definition world_without_driver : World :=
  {| sqlalchemy_create_engine := λ _, inl (ImportError "No module named 'psycopg2'");
     engine_connect := λ _, None;
     pd_read_sql_query := λ _ _, inr survey;
     http_body := λ _, inr "Field_ID,Weather_station";
     csv_parse := λ _, inr station_map |}.

Definition world_offline : World :=
  {| sqlalchemy_create_engine := λ url, inr url;
     engine_connect := λ _, None;
     pd_read_sql_query := λ _ _, inr survey;
     http_body := λ _, inl (OtherError "URLError" "Name or service not known");
     csv_parse := λ _, inr station_map |}.

(** * Properties *)

(** ** Running the monad *)

Lemma bind_ret {A B} (a : A) (k : A → M B) (s : FieldDataProcessor) :
  bind (ret a) k s = k a s.
Proof. done. Qed.

Lemma bind_raise {A B} (e : exn) (k : A → M B) (s : FieldDataProcessor) :
  bind (raise e) k s = (Raise e, s).
Proof. done. Qed.

Lemma bind_get_self {B} (k : FieldDataProcessor → M B) (s : FieldDataProcessor) :
  bind get_self k s = k s s.
Proof. done. Qed.

Lemma bind_self_df {B} (u : df_use) (k : DataFrame → M B)
    (s : FieldDataProcessor) (t : DataFrame) :
  df s = Some t → bind (self_df u) k s = k t s.
Proof. intros Hdf. unfold self_df, bind, get_self. by rewrite Hdf. Qed.

Lemma bind_set_df {B} (t : DataFrame) (k : unit → M B) (s : FieldDataProcessor) :
  bind (set_df t) k s = k tt (with_df t s).
Proof. done. Qed.

Lemma bind_log {B} (r : log_record) (k : unit → M B) (s : FieldDataProcessor) :
  bind (log r) k s = k tt (with_record r s).
Proof. done. Qed.

Lemma bind_assoc {A B C} (m : M A) (k : A → M B) (h : B → M C) (s : FieldDataProcessor) :
  bind (bind m k) h s = bind m (λ a, bind (k a) h) s.
Proof. unfold bind. by destruct (m s) as [[a|e|] s']. Qed.

(** ** The scratch-name loop terminates *)

Lemma string_length_app (a b : string) :
  String.length (a +:+ b) = (String.length a + String.length b)%nat.
Proof. induction a as [|c a IH]; simpl; [done | by rewrite IH]. Qed.

Lemma at_least_shrinks (cols : list string) (name : string) :
  name ∈ cols →
  (length (at_least (S (String.length name)) cols)
   < length (at_least (String.length name) cols))%nat.
Proof.
  intros Hin. unfold at_least.
  rewrite <- (list_filter_filter_l (λ c, (S (String.length name) ≤ String.length c)%nat)
               (λ c, (String.length name ≤ String.length c)%nat)) by (intros; lia).
  apply length_filter_lt with name; [| lia].
  apply list_elem_of_filter. split; [lia | done].
Qed.

Lemma temp_name_loop_enough (cols : list string) (fuel : nat) (name : string) :
  (length (at_least (String.length name) cols) < fuel)%nat →
  ∃ temp_name, temp_name_loop fuel cols name = Some temp_name ∧ temp_name ∉ cols.
Proof.
  revert name. induction fuel as [|fuel IH]; intros name Hlt; [lia |].
  simpl. case_bool_decide as Hin; [| by exists name].
  apply IH. rewrite string_length_app. simpl.
  pose proof (at_least_shrinks cols name Hin) as Hs.
  replace (String.length name + 1)%nat with (S (String.length name)) by lia. lia.
Qed.

Lemma temp_name_loop_total (cols : list string) (name : string) :
  ∃ temp_name,
    temp_name_loop (S (length cols)) cols name = Some temp_name ∧ temp_name ∉ cols.
Proof.
  apply temp_name_loop_enough. unfold at_least.
  pose proof (length_filter (λ c, (String.length name ≤ String.length c)%nat) cols). lia.
Qed.

#[local] Arguments temp_name_loop : simpl never.

(** ** What [rename_columns] leaves in [self.df] *)

Lemma rename_keeps_index (m : gmap string string) (t : DataFrame) :
  index (rename m t) = index t.
Proof. done. Qed.

Lemma rename_keeps_cells (m : gmap string string) (t : DataFrame) :
  (data (rename m t)).*2 = (data t).*2.
Proof.
  unfold rename. simpl. rewrite <- list_fmap_compose. by apply list_fmap_ext.
Qed.

Lemma relabel_keeps_cells (f : string → string) (t : DataFrame) :
  (data (relabel f t)).*2 = (data t).*2.
Proof.
  unfold relabel. simpl. rewrite <- list_fmap_compose. by apply list_fmap_ext.
Qed.

Lemma columns_relabel (f : string → string) (t : DataFrame) :
  columns (relabel f t) = f <$> columns t.
Proof.
  unfold columns, relabel. simpl. rewrite <- !list_fmap_compose. by apply list_fmap_ext.
Qed.

Lemma rename_id_on_absent (m : gmap string string) (t : DataFrame) :
  (∀ c, c ∈ columns t → m !! c = None) → rename m t = t.
Proof.
  intros Hm. destruct t as [n d]. unfold rename, columns in *. simpl in *. f_equal.
  rewrite <- (list_fmap_id d) at 2. apply Forall_fmap_ext, Forall_forall.
  intros [c x] Hc. simpl. rewrite Hm; [done |].
  apply list_elem_of_fmap. by exists (c, x).
Qed.

(** With a scratch name no column carries, the two [rename] calls exchange
    the two labels. *)
Lemma two_renames_swap (t : DataFrame) (column1 column2 temp_name : string) :
  temp_name ∉ columns t →
  column1 ≠ temp_name →
  rename {[temp_name := column2]}
    (rename (<[column2 := column1]> {[column1 := temp_name]}) t)
  = relabel (swap_label column1 column2) t.
Proof.
  intros Hfresh Hne. destruct t as [n d]. unfold rename, relabel, columns in *.
  simpl in *. f_equal. rewrite <- list_fmap_compose.
  apply Forall_fmap_ext, Forall_forall. intros [c x] Hc. simpl. f_equal.
  assert (c ≠ temp_name) as Hct.
  { intros ->. apply Hfresh, list_elem_of_fmap. by exists (temp_name, x). }
  unfold swap_label.
  destruct (decide (c = column2)) as [->|Hc2].
  - rewrite lookup_insert_eq. simpl.
    rewrite lookup_singleton_ne by done. simpl.
    destruct (decide (column2 = column1)); by subst.
  - rewrite lookup_insert_ne by done.
    destruct (decide (c = column1)) as [->|Hc1].
    + rewrite lookup_singleton_eq. simpl. by rewrite lookup_singleton_eq.
    + rewrite lookup_singleton_ne by done. simpl.
      rewrite lookup_singleton_ne by done. done.
Qed.

(** [rename_columns] always returns once [self.df] is set and the rename
    dict is not empty; the frame it leaves is the result of the two
    [rename] calls with a scratch name that avoids every label. *)
Lemma rename_columns_runs (s : FieldDataProcessor) (t : DataFrame)
    (column1 column2 : string) (rest : list (string * string)) :
  columns_to_rename s = (column1, column2) :: rest →
  df s = Some t →
  ∃ temp_name,
    (temp_name ∉ columns t) ∧
    rename_columns s =
      (Return tt,
       with_df (rename {[temp_name := column2]}
                  (rename (<[column2 := column1]> {[column1 := temp_name]}) t))
         (logged ("Swapped columns: " +:+ column1 +:+ " with " +:+ column2) s)).
Proof.
  intros Hcfg Hdf.
  destruct (temp_name_loop_total (columns t) "__temp_name_for_swap__")
    as (temp_name & Hloop & Hfresh).
  exists temp_name. split; [done |].
  unfold rename_columns. rewrite bind_get_self, Hcfg, bind_ret. cbn [fst snd].
  rewrite bind_log. fold (logged ("Swapped columns: " +:+ column1 +:+ " with " +:+ column2) s).
  rewrite (bind_self_df _ _ _ t) by done. rewrite Hloop.
  rewrite (bind_self_df _ _ _ t) by done. rewrite bind_set_df.
  by erewrite bind_self_df by reflexivity.
Qed.

Lemma getitem_relabel (f : string → string) (a b : string) (t : DataFrame) :
  (∀ x, f x = a ↔ x = b) → getitem a (relabel f t) = getitem b t.
Proof.
  intros Hf. destruct t as [n d]. unfold getitem, relabel. simpl.
  induction d as [|[c x] d IH]; [done |].
  rewrite fmap_cons, !filter_cons. cbn [fst snd].
  pose proof (Hf c) as Hc.
  destruct (decide (f c = a)) as [Hfa|Hfa], (decide (c = b)) as [Hcb|Hcb].
  - rewrite !fmap_cons. f_equal. exact IH.
  - exfalso. tauto.
  - exfalso. tauto.
  - exact IH.
Qed.

Lemma swap_label_hits (a b x : string) : swap_label a b x = a ↔ x = b.
Proof. unfold swap_label. repeat case_decide; naive_solver. Qed.

Lemma swap_label_sym (a b x : string) : swap_label a b x = swap_label b a x.
Proof. unfold swap_label. repeat case_decide; naive_solver. Qed.

Lemma swap_label_other (a b x y : string) :
  y ≠ a → y ≠ b → swap_label a b x = y ↔ x = y.
Proof. unfold swap_label. repeat case_decide; naive_solver. Qed.

Lemma swap_label_involutive (a b x : string) :
  swap_label a b (swap_label a b x) = x.
Proof. unfold swap_label. repeat case_decide; naive_solver. Qed.

Lemma relabel_swap_twice (a b : string) (t : DataFrame) :
  relabel (swap_label a b) (relabel (swap_label a b) t) = t.
Proof.
  destruct t as [n d]. unfold relabel. simpl. f_equal.
  rewrite <- list_fmap_compose. rewrite <- (list_fmap_id d) at 2.
  apply list_fmap_ext. intros i [c x] _. simpl. by rewrite swap_label_involutive.
Qed.

(** When the first configured label is present, [rename_columns] returns and
    leaves the frame with the two labels exchanged. *)
Lemma rename_columns_relabels (s : FieldDataProcessor) (t : DataFrame)
    (column1 column2 : string) (rest : list (string * string)) :
  columns_to_rename s = (column1, column2) :: rest →
  df s = Some t →
  column1 ∈ columns t →
  rename_columns s =
    (Return tt,
     with_df (relabel (swap_label column1 column2) t)
       (logged ("Swapped columns: " +:+ column1 +:+ " with " +:+ column2) s)).
Proof.
  intros Hcfg Hdf Hin.
  destruct (rename_columns_runs s t column1 column2 rest Hcfg Hdf)
    as (temp_name & Hfresh & ->).
  rewrite two_renames_swap; [done | done |]. by intros ->.
Qed.

(** C1.  In a frame that has both configured columns, [rename_columns]
    returns, and afterwards the first configured label selects exactly the
    data the second one selected before, and the other way round; every other
    label selects what it did, and no column's cells (nor the row index)
    change. *)
Theorem rename_columns_exchanges_data (s : FieldDataProcessor) (t : DataFrame)
    (column1 column2 : string) (rest : list (string * string)) :
  columns_to_rename s = (column1, column2) :: rest →
  df s = Some t →
  column1 ∈ columns t →
  column2 ∈ columns t →
  ∃ s' t',
    rename_columns s = (Return tt, s') ∧ df s' = Some t' ∧
    getitem column1 t' = getitem column2 t ∧
    getitem column2 t' = getitem column1 t ∧
    (∀ x, x ≠ column1 → x ≠ column2 → getitem x t' = getitem x t) ∧
    index t' = index t ∧ (data t').*2 = (data t).*2.
Proof.
  intros Hcfg Hdf H1 H2. eexists _, _.
  split; [by apply (rename_columns_relabels s t column1 column2 rest) |].
  split; [reflexivity |]. repeat split.
  - apply getitem_relabel, swap_label_hits.
  - apply getitem_relabel. intros x. rewrite swap_label_sym. apply swap_label_hits.
  - intros x Hx1 Hx2. apply getitem_relabel. intros y. by apply swap_label_other.
  - apply relabel_keeps_cells.
Qed.

Lemma rename_columns_exchanges_data_witness :
  ∃ s' t',
    rename_columns (with_df survey (init shipped_config)) = (Return tt, s') ∧
    df s' = Some t' ∧
    getitem "Annual_yield" t' = getitem "Crop_type" survey ∧
    getitem "Crop_type" t' = getitem "Annual_yield" survey ∧
    (∀ x, x ≠ "Annual_yield" → x ≠ "Crop_type" → getitem x t' = getitem x survey) ∧
    index t' = index survey ∧ (data t').*2 = (data survey).*2.
Proof.
  apply (rename_columns_exchanges_data (with_df survey (init shipped_config)) survey
           "Annual_yield" "Crop_type" [("Crop_type", "Annual_yield")]).
  - reflexivity.
  - reflexivity.
  - compute_done.
  - compute_done.
Defined.

(** C8.  In a frame that has both configured columns, running
    [rename_columns] twice returns both times and leaves [self.df] exactly
    the frame it started from: labels, their order and their data. *)
Theorem rename_columns_involution (s : FieldDataProcessor) (t : DataFrame)
    (column1 column2 : string) (rest : list (string * string)) :
  columns_to_rename s = (column1, column2) :: rest →
  df s = Some t →
  column1 ∈ columns t →
  column2 ∈ columns t →
  ∃ s1 s2,
    rename_columns s = (Return tt, s1) ∧
    rename_columns s1 = (Return tt, s2) ∧
    df s2 = Some t.
Proof.
  intros Hcfg Hdf H1 H2. eexists _, _.
  split; [by apply (rename_columns_relabels s t column1 column2 rest) |].
  split.
  - apply (rename_columns_relabels _ (relabel (swap_label column1 column2) t)
             column1 column2 rest); [done | done |].
    rewrite columns_relabel. apply list_elem_of_fmap. exists column2.
    split; [| done]. symmetry. by apply swap_label_hits.
  - simpl. by rewrite relabel_swap_twice.
Qed.

Lemma rename_columns_involution_witness :
  ∃ s1 s2,
    rename_columns (with_df survey (init shipped_config)) = (Return tt, s1) ∧
    rename_columns s1 = (Return tt, s2) ∧
    df s2 = Some survey.
Proof.
  apply (rename_columns_involution (with_df survey (init shipped_config)) survey
           "Annual_yield" "Crop_type" [("Crop_type", "Annual_yield")]).
  - reflexivity.
  - reflexivity.
  - compute_done.
  - compute_done.
Defined.

(** C5, as the code behaves.  In a frame that lacks one of the two
    configured columns, [rename_columns] raises nothing: it returns, no
    column's cells change, and when both are lacking the frame is left as it
    was. *)
Theorem rename_columns_missing_returns (s : FieldDataProcessor) (t : DataFrame)
    (column1 column2 : string) (rest : list (string * string)) :
  columns_to_rename s = (column1, column2) :: rest →
  df s = Some t →
  column1 ∉ columns t ∨ column2 ∉ columns t →
  ∃ s' t',
    rename_columns s = (Return tt, s') ∧ df s' = Some t' ∧
    index t' = index t ∧ (data t').*2 = (data t).*2 ∧
    (column1 ∉ columns t → column2 ∉ columns t → t' = t).
Proof.
  intros Hcfg Hdf _.
  destruct (rename_columns_runs s t column1 column2 rest Hcfg Hdf)
    as (temp_name & Hfresh & Hrun).
  eexists _, _. split; [exact Hrun |]. split; [reflexivity |].
  split; [done |]. split; [by rewrite !rename_keeps_cells |].
  intros H1 H2.
  rewrite (rename_id_on_absent _ t).
  - apply rename_id_on_absent. intros c Hc.
    apply lookup_singleton_ne. by intros ->.
  - intros c Hc. rewrite lookup_insert_ne by (by intros ->).
    apply lookup_singleton_ne. by intros ->.
Qed.

Lemma rename_columns_missing_returns_witness :
  ∃ s' t',
    rename_columns (with_df station_map (init shipped_config)) = (Return tt, s') ∧
    df s' = Some t' ∧
    index t' = index station_map ∧ (data t').*2 = (data station_map).*2 ∧
    ("Annual_yield" ∉ columns station_map → "Crop_type" ∉ columns station_map →
     t' = station_map).
Proof.
  apply (rename_columns_missing_returns (with_df station_map (init shipped_config))
           station_map "Annual_yield" "Crop_type" [("Crop_type", "Annual_yield")]).
  - reflexivity.
  - reflexivity.
  - left. compute_done.
Defined.

(** C5, as the specification words it, fails: on a frame with neither
    configured column the method returns normally and [self.df] is what it
    was. *)
Lemma rename_columns_missing_no_error :
  ("Annual_yield" ∉ columns station_map) ∧
  ("Crop_type" ∉ columns station_map) ∧
  (rename_columns (with_df station_map (init shipped_config))).1 = Return tt ∧
  df (rename_columns (with_df station_map (init shipped_config))).2 = Some station_map.
Proof.
  split; [compute_done |]. split; [compute_done |].
  split; vm_compute; reflexivity.
Qed.

(** ** Reading and writing columns by label *)

Lemma getitem_nil_iff (label : string) (t : DataFrame) :
  getitem label t = [] ↔ label ∉ columns t.
Proof.
  destruct t as [n d]. unfold getitem, columns. simpl.
  induction d as [|[c x] d IH]; simpl.
  - split; [intros _; apply not_elem_of_nil | done].
  - rewrite filter_cons. cbn [fst]. rewrite not_elem_of_cons.
    destruct (decide (c = label)) as [->|Hne].
    + split; [done | by intros [? _]].
    + split; [intros H; split; [done | by apply IH] | intros [_ H]; by apply IH].
Qed.

Lemma setitem_rewrites (label : string) (f : Series → option Series)
    (t : DataFrame) (new : list Series) :
  mapM f (getitem label t) = Some new →
  rewrites label f (data t) (data (setitem label new t)).
Proof.
  destruct t as [n d]. unfold getitem, setitem, rewrites. simpl.
  revert new. induction d as [|[c x] d IH]; intros new Hnew; [constructor |].
  simpl. rewrite filter_cons in Hnew. cbn [fst] in *.
  destruct (decide (c = label)) as [->|Hne].
  - rewrite fmap_cons in Hnew. cbn [snd] in Hnew.
    apply mapM_Some in Hnew. inversion Hnew as [|? x' ? new' Hx Hrest]; subst.
    constructor.
    + simpl. by rewrite decide_True.
    + apply IH. by apply mapM_Some.
  - constructor.
    + simpl. by rewrite decide_False.
    + by apply IH.
Qed.

Lemma rewrites_columns (label : string) (f : Series → option Series)
    (d d' : list (string * Series)) :
  rewrites label f d d' → d'.*1 = d.*1.
Proof.
  induction 1 as [|c c' d d' [Hc _] _ IH]; [done |]. rewrite !fmap_cons. by f_equal.
Qed.

Lemma rewrites_lookup (label : string) (f : Series → option Series)
    (d d' : list (string * Series)) (j : nat) (c : string * Series) :
  rewrites label f d d' →
  d !! j = Some c →
  ∃ c', d' !! j = Some c' ∧ c'.1 = c.1 ∧
        (c.1 = label → f c.2 = Some c'.2) ∧ (c.1 ≠ label → c'.2 = c.2).
Proof.
  intros Hrel Hj. destruct (Forall2_lookup_l _ _ _ _ _ Hrel Hj) as (c' & Hj' & Hc & Hf).
  exists c'. split; [done |]. split; [done |].
  destruct (decide (c.1 = label)); split; done.
Qed.

Lemma getitem_setitem (label : string) (new : list Series) (t : DataFrame) :
  length new = length (getitem label t) →
  getitem label (setitem label new t) = new.
Proof.
  destruct t as [n d]. unfold getitem, setitem. simpl.
  revert new. induction d as [|[c x] d IH]; intros new Hlen.
  - by destruct new.
  - simpl in *. rewrite filter_cons in Hlen. cbn [fst] in *.
    destruct (decide (c = label)) as [->|Hne].
    + rewrite fmap_cons in Hlen. destruct new as [|s new]; [done |].
      rewrite filter_cons. cbn [fst]. rewrite decide_True by done.
      rewrite fmap_cons. cbn [snd]. f_equal. apply IH. simpl in Hlen. lia.
    + rewrite filter_cons. cbn [fst]. rewrite decide_False by done. by apply IH.
Qed.

Lemma getitem_setitem_ne (label label' : string) (new : list Series) (t : DataFrame) :
  label' ≠ label →
  getitem label' (setitem label new t) = getitem label' t.
Proof.
  intros Hne. destruct t as [n d]. unfold getitem, setitem. simpl.
  revert new. induction d as [|[c x] d IH]; intros new; [done |].
  simpl. destruct (decide (c = label)) as [->|Hc].
  - destruct new as [|s new]; [done |].
    rewrite !filter_cons. cbn [fst]. rewrite !decide_False by done. apply IH.
  - rewrite !filter_cons. cbn [fst].
    destruct (decide (c = label')); rewrite ?fmap_cons, IH; done.
Qed.

Lemma setitem_getitem (label : string) (t : DataFrame) :
  setitem label (getitem label t) t = t.
Proof.
  destruct t as [n d]. unfold getitem, setitem. simpl. f_equal.
  induction d as [|[c x] d IH]; [done |].
  simpl. rewrite filter_cons. cbn [fst].
  destruct (decide (c = label)) as [->|Hc].
  - rewrite fmap_cons. cbn [snd]. by rewrite IH.
  - by rewrite IH.
Qed.


(** ** The two statements of [apply_corrections], run *)

Lemma correct_sign_run (s : FieldDataProcessor) (t : DataFrame) (abs_column : string) :
  df s = Some t →
  correct_sign abs_column s =
    match getitem abs_column t with
    | [] => (Raise (KeyError abs_column), s)
    | sel =>
        match mapM series_abs sel with
        | None => (Raise (TypeError "bad operand type for abs(): 'str'"), s)
        | Some sel' => (Return tt, with_df (setitem abs_column sel' t) s)
        end
    end.
Proof.
  intros Hdf. unfold correct_sign. rewrite (bind_self_df _ _ s t Hdf).
  destruct (getitem abs_column t) as [|s0 sel]; [done |].
  destruct (mapM series_abs (s0 :: sel)); [| done].
  by rewrite (bind_self_df _ _ s t Hdf).
Qed.

Lemma correct_spelling_run (s : FieldDataProcessor) (t : DataFrame) (column_name : string) :
  df s = Some t →
  correct_spelling column_name s =
    match getitem column_name t with
    | [] => (Raise (KeyError column_name), s)
    | [x] =>
        (Return tt,
         with_df (setitem column_name
                    [series_apply (λ crop, dict_get (values_to_rename s) crop crop) x] t) s)
    | sel =>
        if decide (index t = 0%nat)
        then (Return tt, with_df (setitem column_name sel t) s)
        else (Raise (TypeError "unhashable type: 'Series'"), s)
    end.
Proof.
  intros Hdf. unfold correct_spelling.
  rewrite bind_get_self, (bind_self_df _ _ s t Hdf).
  destruct (getitem column_name t) as [|x [|y sel]]; [done | |].
  - by rewrite (bind_self_df _ _ s t Hdf).
  - destruct (decide (index t = 0%nat)); [| done].
    by rewrite (bind_self_df _ _ s t Hdf).
Qed.

(** ** Cells before and after a column is rewritten *)

Lemma columns_lookup (t : DataFrame) (j : nat) (label : string) :
  columns t !! j = Some label ↔ ∃ x, data t !! j = Some (label, x).
Proof.
  unfold columns. rewrite list_lookup_fmap. destruct (data t !! j) as [[c x]|]; simpl.
  - split; [intros [= ->]; by exists x | by intros (y & [= -> ->])].
  - split; [done | by intros (? & ?)].
Qed.

Lemma rewrites_cell_in (label : string) (f : Series → option Series)
    (t t' : DataFrame) (j : nat) :
  rewrites label f (data t) (data t') →
  columns t !! j = Some label →
  ∃ x x', f x = Some x' ∧
          data t !! j = Some (label, x) ∧ data t' !! j = Some (label, x').
Proof.
  intros Hrel Hj. apply columns_lookup in Hj as (x & Hx).
  destruct (rewrites_lookup label f _ _ j _ Hrel Hx) as ([c' x'] & Hx' & Hc & Hin & _).
  simpl in *. subst c'. exists x, x'. by rewrite Hin.
Qed.

Lemma rewrites_cell_out (label : string) (f : Series → option Series)
    (t t' : DataFrame) (i j : nat) :
  rewrites label f (data t) (data t') →
  columns t !! j ≠ Some label →
  cell t' i j = cell t i j.
Proof.
  intros Hrel Hj. unfold cell.
  destruct (data t !! j) as [[c x]|] eqn:Hx.
  - destruct (rewrites_lookup label f _ _ j _ Hrel Hx) as ([c' x'] & -> & Hc & _ & Hout).
    simpl in *. rewrite Hout; [done |].
    intros ->. apply Hj, columns_lookup. by exists x.
  - apply lookup_ge_None in Hx. rewrite (Forall2_length _ _ _ Hrel) in Hx.
    apply lookup_ge_None in Hx. by rewrite Hx.
Qed.

(** ** The sign correction *)

Lemma series_abs_length (x x' : list value) : series_abs x = Some x' → length x' = length x.
Proof.
  unfold series_abs. destruct (is_int64 x).
  - intros [= <-]. by rewrite length_fmap.
  - intros Hx%mapM_Some. symmetry. by apply (Forall2_length _ _ _ Hx).
Qed.

Lemma abs_outside_int64 (z : Z) : ¬ (int64_min ≤ z ≤ int64_max) → ¬ (int64_min ≤ Z.abs z ≤ int64_max).
Proof. unfold int64_min, int64_max. lia. Qed.

Lemma int64_abs_range (z : Z) :
  int64_min ≤ z ≤ int64_max → z ≠ int64_min → int64_min ≤ Z.abs z ≤ int64_max.
Proof. unfold int64_min, int64_max. lia. Qed.

Lemma series_abs_cells (x x' : list value) : series_abs x = Some x' → Forall2 abs_of x x'.
Proof.
  unfold series_abs. destruct (is_int64 x) eqn:Hint.
  - intros [= <-]. induction x as [|v x IH]; [constructor |].
    simpl in Hint. apply andb_true_iff in Hint as [Hv Hx].
    rewrite fmap_cons. constructor; [| by apply IH].
    destruct v as [|z|k|z]; try done. simpl.
    destruct (decide (z = int64_min)) as [->|Hz]; [by right | by left].
  - intros Hx%mapM_Some. eapply Forall2_impl; [exact Hx |]. intros v v' Hv. by left.
Qed.


Lemma abs_cell_fixed (v v' : value) : abs_cell v = Some v' → abs_cell v' = Some v'.
Proof.
  destruct v as [|z|k|z]; simpl; intros [= <-]; simpl; [done | |];
    by rewrite Z.abs_idemp.
Qed.

Lemma is_int64_abs (x : list value) : is_int64 x = true → is_int64 (int64_abs <$> x) = true.
Proof.
  induction x as [|v x IH]; [done |]. simpl.
  intros [Hv Hx]%andb_true_iff. apply andb_true_iff. split; [| by apply IH].
  destruct v as [|z|k|z]; try done. simpl.
  apply bool_decide_eq_true in Hv. apply bool_decide_eq_true.
  destruct (decide (z = int64_min)); [done |]. by apply int64_abs_range.
Qed.

Lemma int64_abs_fixed (x : list value) : int64_abs <$> (int64_abs <$> x) = int64_abs <$> x.
Proof.
  rewrite <- list_fmap_compose. apply list_fmap_ext. intros _ v _.
  destruct v as [|z|k|z]; try done. simpl. f_equal.
  destruct (decide (z = int64_min)) as [->|Hz]; [done |].
  destruct (decide (Z.abs z = int64_min)) as [Habs|_]; [| apply Z.abs_idemp].
  unfold int64_min in Habs. lia.
Qed.

Lemma is_int64_abs_cell (x x' : list value) :
  is_int64 x = false → Forall2 (λ v v', abs_cell v = Some v') x x' → is_int64 x' = false.
Proof.
  intros Hint Hx. induction Hx as [|v v' x x' Hv _ IH]; [done |].
  simpl in *. apply andb_false_iff in Hint as [Hint | Hint];
    apply andb_false_iff; [left | right; by apply IH].
  destruct v as [|z|k|z]; simpl in Hv; [| | done |]; injection Hv as <-; try done.
  apply bool_decide_eq_false in Hint. apply bool_decide_eq_false.
  by apply abs_outside_int64.
Qed.

Lemma series_abs_fixed (x x' : Series) : series_abs x = Some x' → series_abs x' = Some x'.
Proof.
  unfold series_abs. destruct (is_int64 x) eqn:Hint.
  - intros [= <-]. by rewrite is_int64_abs, int64_abs_fixed.
  - intros Hx%mapM_Some. rewrite (is_int64_abs_cell x x' Hint Hx).
    apply mapM_Some. clear Hint.
    induction Hx as [|v v' x x' Hv _ IH]; constructor; [| done].
    by apply (abs_cell_fixed v).
Qed.

(** ** Taking runs apart *)

Lemma bind_Return_inv {A B} (m : M A) (k : A → M B) (s s2 : FieldDataProcessor) (b : B) :
  bind m k s = (Return b, s2) →
  ∃ a s1, m s = (Return a, s1) ∧ k a s1 = (Return b, s2).
Proof.
  unfold bind. destruct (m s) as [[a|e|] s1]; [| done | done]. by exists a, s1.
Qed.

Lemma with_df_same (s : FieldDataProcessor) (t : DataFrame) :
  df s = Some t → with_df t s = s.
Proof. destruct s. simpl. by intros ->. Qed.

Lemma correct_sign_inv (s s1 : FieldDataProcessor) (abs_column : string) :
  correct_sign abs_column s = (Return tt, s1) →
  ∃ t sel',
    df s = Some t ∧ getitem abs_column t ≠ [] ∧
    mapM series_abs (getitem abs_column t) = Some sel' ∧
    s1 = with_df (setitem abs_column sel' t) s.
Proof.
  destruct (df s) as [t|] eqn:Hdf.
  - rewrite (correct_sign_run s t abs_column Hdf).
    destruct (getitem abs_column t) as [|x sel] eqn:Hget; [done |].
    destruct (mapM series_abs (x :: sel)) as [sel'|] eqn:Hsel; [| done].
    intros [= <-]. exists t, sel'. by rewrite Hget.
  - unfold correct_sign, bind, self_df, bind, get_self. by rewrite Hdf.
Qed.




Lemma correct_spelling_inv (s s1 : FieldDataProcessor) (column_name : string) :
  correct_spelling column_name s = (Return tt, s1) →
  ∃ t new,
    df s = Some t ∧ s1 = with_df (setitem column_name new t) s ∧
    ((∃ x, getitem column_name t = [x] ∧
           new = [series_apply (λ crop, dict_get (values_to_rename s) crop crop) x])
     ∨ (index t = 0%nat ∧ (∃ x y sel, getitem column_name t = x :: y :: sel) ∧
        new = getitem column_name t)).
Proof.
  destruct (df s) as [t|] eqn:Hdf.
  - rewrite (correct_spelling_run s t column_name Hdf).
    destruct (getitem column_name t) as [|x [|y sel]] eqn:Hget; [done | |].
    + intros [= <-]. eexists t, _. split; [done |]. split; [done |]. left. by exists x.
    + destruct (decide (index t = 0%nat)) as [H0|]; [| done].
      intros [= <-]. eexists t, _. split; [done |]. split; [done |]. right.
      rewrite Hget. split; [done |]. split; [by exists x, y, sel | done].
  - unfold correct_spelling, bind, self_df, bind, get_self. by rewrite Hdf.
Qed.

Lemma mapM_Some_id {A} (l : list A) : mapM Some l = Some l.
Proof. apply mapM_Some. by apply Forall_Forall2_diag, Forall_true. Qed.

(** What a returning run of the spelling correction does to the columns. *)
Lemma correct_spelling_rewrites (s s1 : FieldDataProcessor) (column_name : string)
    (t : DataFrame) :
  df s = Some t →
  wf t →
  correct_spelling column_name s = (Return tt, s1) →
  ∃ t1,
    s1 = with_df t1 s ∧ index t1 = index t ∧
    rewrites column_name
      (λ x, Some (series_apply (λ crop, dict_get (values_to_rename s) crop crop) x))
      (data t) (data t1).
Proof.
  intros Hdf Hwf Hrun.
  apply correct_spelling_inv in Hrun as (t0 & new & Hdf0 & -> & Hnew).
  rewrite Hdf in Hdf0. injection Hdf0 as <-.
  eexists. split; [done |]. split; [done |].
  destruct Hnew as [(x & Hget & ->) | (H0 & _ & ->)].
  - apply setitem_rewrites. by rewrite Hget.
  - rewrite setitem_getitem. apply Forall_Forall2_diag, Forall_forall.
    intros [c x] Hc. split; [done |]. case_decide; [| done]. simpl.
    unfold wf in Hwf. rewrite Forall_forall in Hwf. specialize (Hwf _ Hc).
    simpl in Hwf. rewrite H0 in Hwf. by destruct x.
Qed.

Lemma dict_get_default (M : gmap string string) (v : value) :
  dict_get M v v = default v (lookup_value M v).
Proof. destruct v as [|z|k|z]; simpl; [done | done | | done]. by destruct (M !! k). Qed.

(** C2, as the code behaves.  When [apply_corrections] returns on a
    well-formed frame and its two columns are different ones, every cell [v]
    of the categorical column has become [M[v]] if [v] is a key of the
    correction map and is [v] otherwise, and every cell outside the
    categorical column and the sign-corrected column is what it was.  Labels
    and the row index are kept. *)
Theorem apply_corrections_cells (s s' : FieldDataProcessor) (t : DataFrame)
    (column_name abs_column : string) :
  df s = Some t →
  wf t →
  column_name ≠ abs_column →
  apply_corrections (Some column_name) (Some abs_column) s = (Return tt, s') →
  ∃ t',
    df s' = Some t' ∧ columns t' = columns t ∧ index t' = index t ∧
    (∀ i j v, columns t !! j = Some column_name → cell t i j = Some v →
              cell t' i j = Some (default v (lookup_value (values_to_rename s) v))) ∧
    (∀ i j, columns t !! j ≠ Some column_name → columns t !! j ≠ Some abs_column →
            cell t' i j = cell t i j).
Proof.
  intros Hdf Hwf Hne Hrun. unfold apply_corrections in Hrun. simpl in Hrun.
  apply bind_Return_inv in Hrun as ([] & s1 & Hsign & Hspell).
  apply correct_sign_inv in Hsign as (t0 & sel' & Hdf0 & _ & Hsel & ->).
  rewrite Hdf in Hdf0. injection Hdf0 as <-.
  pose proof (setitem_rewrites abs_column series_abs t sel' Hsel) as Hrel1.
  set (ta := setitem abs_column sel' t) in *.
  assert (wf ta) as Hwfa.
  { unfold wf in *. apply Forall_forall. intros c' Hc'.
    apply list_elem_of_lookup in Hc' as (j & Hj).
    destruct (Forall2_lookup_r _ _ _ _ _ Hrel1 Hj) as (c & Hc & _ & Hf).
    rewrite Forall_forall in Hwf.
    assert (length c.2 = index t) as Hlen
      by (apply Hwf, list_elem_of_lookup; by exists j).
    case_decide as Hlab; [| by rewrite Hf].
    apply series_abs_length in Hf. by rewrite Hf. }
  apply (correct_spelling_rewrites _ _ _ ta) in Hspell as (tb & -> & Hidx & Hrel2);
    [| done | done].
  change (values_to_rename (with_df ta s)) with (values_to_rename s) in Hrel2.
  exists tb. split; [done |].
  assert (columns ta = columns t) as Hcols1 by (by apply (rewrites_columns _ _ _ _ Hrel1)).
  assert (columns tb = columns ta) as Hcols2 by (by apply (rewrites_columns _ _ _ _ Hrel2)).
  split; [by rewrite Hcols2 |]. split; [done |]. split.
  - intros i j v Hj Hv.
    assert (cell ta i j = Some v) as Hva.
    { rewrite (rewrites_cell_out _ _ _ _ i j Hrel1); [done |].
      rewrite Hj. by intros [= ->]. }
    rewrite <- Hcols1 in Hj.
    destruct (rewrites_cell_in _ _ _ _ j Hrel2 Hj) as (x & x' & [= <-] & Hd & Hd').
    unfold cell in *. rewrite Hd in Hva. rewrite Hd'. simpl in *.
    unfold series_apply. rewrite list_lookup_fmap, Hva. simpl.
    by rewrite dict_get_default.
  - intros i j Hj1 Hj2.
    rewrite (rewrites_cell_out _ _ _ _ i j Hrel2) by (by rewrite Hcols1).
    by rewrite (rewrites_cell_out _ _ _ _ i j Hrel1).
Qed.

Lemma apply_corrections_cells_witness :
  ∃ t',
    df (apply_corrections (Some "Crop_type") (Some "Elevation")
          (with_df labelled_survey (init shipped_config))).2 = Some t' ∧
    columns t' = columns labelled_survey ∧ index t' = index labelled_survey ∧
    (∀ i j v, columns labelled_survey !! j = Some "Crop_type" →
              cell labelled_survey i j = Some v →
              cell t' i j
              = Some (default v (lookup_value (cfg_values_to_rename shipped_config) v))) ∧
    (∀ i j, columns labelled_survey !! j ≠ Some "Crop_type" →
            columns labelled_survey !! j ≠ Some "Elevation" →
            cell t' i j = cell labelled_survey i j).
Proof.
  apply (apply_corrections_cells (with_df labelled_survey (init shipped_config)) _
           labelled_survey "Crop_type" "Elevation").
  - reflexivity.
  - unfold wf. simpl. repeat constructor.
  - discriminate.
  - vm_compute. reflexivity.
Defined.

(** C2, as the specification words it, fails: the same call rewrites the
    elevation column, so a cell outside the categorical column changes. *)
Lemma apply_corrections_touches_elevation :
  ∃ s' t',
    apply_corrections (Some "Crop_type") (Some "Elevation")
      (with_df labelled_survey (init shipped_config)) = (Return tt, s') ∧
    df s' = Some t' ∧
    columns labelled_survey !! 1%nat = Some "Elevation" ∧
    cell labelled_survey 0 1 = Some (VNum (-5)) ∧
    cell t' 0 1 = Some (VNum 5).
Proof. eexists _, _. split_and!; vm_compute; reflexivity. Qed.

(** ** Running the corrections a second time *)

Lemma dict_get_idem (M : gmap string string) (v : value) :
  (∀ k x, M !! k = Some x → M !! x = None) →
  dict_get M (dict_get M v v) (dict_get M v v) = dict_get M v v.
Proof.
  intros HM. destruct v as [|z|k|z]; simpl; [done | done | | done].
  destruct (M !! k) as [x|] eqn:Hk; simpl.
  - by rewrite (HM k x Hk).
  - by rewrite Hk.
Qed.

Lemma dict_get_abs_image (M : gmap string string) (v v' : value) :
  abs_of v v' → dict_get M v' v' = v'.
Proof.
  intros [Habs | [_ ->]]; [| done]. revert Habs. by destruct v; simpl; intros [= <-].
Qed.

Lemma series_apply_abs_image (M : gmap string string) (x0 x : list value) :
  series_abs x0 = Some x →
  series_apply (λ crop, dict_get M crop crop) x = x.
Proof.
  unfold series_apply. intros Hx%series_abs_cells.
  induction Hx as [|v v' x0 x Hv _ IH]; [done |].
  rewrite fmap_cons, IH. f_equal. by apply (dict_get_abs_image M v).
Qed.

(** C9.  If no value of the correction map is itself a key of it, then
    after a call of [apply_corrections] that returns, a second call with the
    same arguments also returns and changes nothing: the instance, frame
    included, is exactly what the first call left. *)
Theorem apply_corrections_idempotent (s s1 : FieldDataProcessor)
    (column_name abs_column : option string) :
  (∀ k x, values_to_rename s !! k = Some x → values_to_rename s !! x = None) →
  apply_corrections column_name abs_column s = (Return tt, s1) →
  apply_corrections column_name abs_column s1 = (Return tt, s1).
Proof.
  intros HM Hrun. unfold apply_corrections in *.
  set (c := default "Crop_type" column_name) in *.
  set (a := default "Elevation" abs_column) in *.
  set (g := λ crop, dict_get (values_to_rename s) crop crop).
  apply bind_Return_inv in Hrun as ([] & sa & Hsign & Hspell).
  apply correct_sign_inv in Hsign as (t & selA & Hdf & Hne & Hsel & ->).
  set (ta := setitem a selA t) in *.
  apply correct_spelling_inv in Hspell as (t0 & new & Hdf0 & -> & Hnew).
  injection Hdf0 as <-.
  change (values_to_rename (with_df ta s)) with (values_to_rename s) in Hnew.
  fold g in Hnew.
  set (tb := setitem c new ta) in *.
  pose proof (proj1 (mapM_Some _ _ _) Hsel) as HselF.
  assert (getitem a ta = selA) as F2.
  { apply getitem_setitem. symmetry. by apply (Forall2_length _ _ _ HselF). }
  assert (mapM series_abs selA = Some selA) as F3.
  { apply mapM_Some, Forall_Forall2_diag.
    apply (Forall2_Forall_r _ _ _ _ HselF), Forall_forall.
    intros x0 _ x. apply series_abs_fixed. }
  assert (getitem c tb = new) as F4.
  { apply getitem_setitem.
    destruct Hnew as [(x & -> & ->) | (_ & _ & ->)]; done. }
  assert (index tb = index t) as Hidx by done.
  assert (getitem a tb = selA) as F5.
  { destruct (decide (a = c)) as [Hac|Hac].
    - rewrite Hac, F4. rewrite Hac in F2.
      destruct Hnew as [(x & Hget & ->) | (_ & _ & ->)]; [| done].
      rewrite F2 in Hget. subst selA. f_equal.
      inversion HselF as [|x0 ? l ? Hx0 _]; subst.
      by apply (series_apply_abs_image _ x0).
    - unfold tb. by rewrite getitem_setitem_ne. }
  assert (selA ≠ []) as F6.
  { intros ->. apply Forall2_nil_inv_r in HselF. done. }
  assert (df (with_df tb (with_df ta s)) = Some tb) as Hdfb by done.
  unfold bind.
  rewrite (correct_sign_run _ tb a Hdfb), F5.
  destruct selA as [|x0 selA0] eqn:HA; [done |]. rewrite F3, <- F5.
  rewrite setitem_getitem, (with_df_same _ tb Hdfb).
  rewrite (correct_spelling_run _ tb c Hdfb), F4.
  change (values_to_rename (with_df tb (with_df ta s))) with (values_to_rename s).
  fold g.
  destruct Hnew as [(x & Hget & Hn) | (H0 & (x & y & sel & Hget) & Hn)].
  - rewrite Hn.
    replace (series_apply g (series_apply g x)) with (series_apply g x).
    + rewrite <- Hn, <- F4, setitem_getitem. by rewrite (with_df_same _ tb Hdfb).
    + unfold series_apply. rewrite <- list_fmap_compose.
      apply list_fmap_ext. intros i v _. simpl. unfold g. by rewrite dict_get_idem.
  - rewrite Hn, Hget. rewrite decide_True by done.
    rewrite <- Hget, <- Hn, <- F4, setitem_getitem. by rewrite (with_df_same _ tb Hdfb).
Qed.

Lemma apply_corrections_idempotent_witness :
  apply_corrections None None
    (apply_corrections None None (with_df labelled_survey (init shipped_config))).2
  = (Return tt,
     (apply_corrections None None (with_df labelled_survey (init shipped_config))).2).
Proof.
  apply (apply_corrections_idempotent (with_df labelled_survey (init shipped_config))).
  - intros k x. change (values_to_rename _) with (cfg_values_to_rename shipped_config).
    unfold shipped_config, cfg_values_to_rename.
    rewrite !lookup_insert, lookup_singleton.
    repeat case_decide; intros [= <-]; repeat case_decide; subst; done.
  - vm_compute. reflexivity.
Defined.

(** ** [process], step by step *)

Lemma try_except_Return_inv {A} (body : M A) (handler : exn → M A)
    (s s' : FieldDataProcessor) (a : A) :
  (∀ e s0, ∃ e' s1, handler e s0 = (Raise e', s1)) →
  try_except body handler s = (Return a, s') →
  body s = (Return a, s').
Proof.
  intros Hh. unfold try_except. destruct (body s) as [[a0|e|] s0]; [done | | done].
  destruct (Hh e s0) as (e' & s1 & ->). done.
Qed.

(** C10.  Whatever the configuration held by the instance, a run of
    [process] that returns has gone through the sign correction on the
    column literally labelled [Elevation] and the spelling correction on the
    column literally labelled [Crop_type], between [rename_columns] and
    [weather_station_mapping]; in particular the frame [rename_columns] left
    carries both labels.  A call of [apply_corrections] without arguments is
    a call with these two labels. *)
Theorem process_corrects_default_columns (w : World) (s s' : FieldDataProcessor) :
  process w s = (Return tt, s') →
  (∀ s0, apply_corrections None None s0
         = apply_corrections (Some "Crop_type") (Some "Elevation") s0) ∧
  ∃ t s1 s2 s3 s4 s5 t2,
    ingest_sql_data w (logged "Starting the data processing pipeline." s) = (Return t, s1) ∧
    rename_columns (logged "Renaming columns..." s1) = (Return tt, s2) ∧
    correct_sign "Elevation" (logged "Applying data corrections..." s2) = (Return tt, s3) ∧
    correct_spelling "Crop_type" s3 = (Return tt, s4) ∧
    weather_station_mapping w (logged "Mapping weather station data..." s4)
      = (Return tt, s5) ∧
    s' = logged "Data processing pipeline completed successfully." s5 ∧
    df s2 = Some t2 ∧ "Elevation" ∈ columns t2 ∧ "Crop_type" ∈ columns t2.
Proof.
  intros Hrun. split; [done |].
  unfold process in Hrun. apply try_except_Return_inv in Hrun; [| by eauto].
  rewrite bind_log in Hrun. fold (logged "Starting the data processing pipeline." s) in Hrun.
  apply bind_Return_inv in Hrun as (t & s1 & Hingest & Hrun).
  rewrite bind_log in Hrun. fold (logged "Renaming columns..." s1) in Hrun.
  apply bind_Return_inv in Hrun as ([] & s2 & Hrename & Hrun).
  rewrite bind_log in Hrun. fold (logged "Applying data corrections..." s2) in Hrun.
  apply bind_Return_inv in Hrun as ([] & s4 & Happly & Hrun).
  unfold apply_corrections in Happly. simpl in Happly.
  apply bind_Return_inv in Happly as ([] & s3 & Hsign & Hspell).
  rewrite bind_log in Hrun. fold (logged "Mapping weather station data..." s4) in Hrun.
  apply bind_Return_inv in Hrun as ([] & s5 & Hmap & Hrun).
  injection Hrun as <-.
  destruct (correct_sign_inv _ _ _ Hsign) as (t2 & selA & Hdf2 & HneA & HselA & Hs3).
  destruct (correct_spelling_inv _ _ _ Hspell) as (t3 & new & Hdf3 & _ & Hnew).
  exists t, s1, s2, s3, s4, s5, t2. split_and!; try done.
  - destruct (decide ("Elevation" ∈ columns t2)) as [|Hn]; [done |].
    by apply getitem_nil_iff in Hn.
  - rewrite Hs3 in Hdf3. injection Hdf3 as <-.
    assert (getitem "Crop_type" t2 ≠ []) as Hc.
    { rewrite <- (getitem_setitem_ne "Elevation" "Crop_type" selA t2) by done.
      destruct Hnew as [(x & -> & _) | (_ & (x & y & sel & ->) & _)]; done. }
    destruct (decide ("Crop_type" ∈ columns t2)) as [|Hn]; [done |].
    by apply getitem_nil_iff in Hn.
Qed.

Lemma process_corrects_default_columns_witness :
  (∀ s0, apply_corrections None None s0
         = apply_corrections (Some "Crop_type") (Some "Elevation") s0) ∧
  ∃ t s1 s2 s3 s4 s5 t2,
    ingest_sql_data (world_of survey station_map)
      (logged "Starting the data processing pipeline." (init shipped_config))
      = (Return t, s1) ∧
    rename_columns (logged "Renaming columns..." s1) = (Return tt, s2) ∧
    correct_sign "Elevation" (logged "Applying data corrections..." s2) = (Return tt, s3) ∧
    correct_spelling "Crop_type" s3 = (Return tt, s4) ∧
    weather_station_mapping (world_of survey station_map)
      (logged "Mapping weather station data..." s4) = (Return tt, s5) ∧
    (process (world_of survey station_map) (init shipped_config)).2
      = logged "Data processing pipeline completed successfully." s5 ∧
    df s2 = Some t2 ∧ "Elevation" ∈ columns t2 ∧ "Crop_type" ∈ columns t2.
Proof.
  apply (process_corrects_default_columns (world_of survey station_map)
           (init shipped_config)).
  vm_compute. reflexivity.
Defined.

(** ** Failures of the two collaborators *)

Lemma create_db_engine_ok (w : World) (s : FieldDataProcessor) (url : string) (eng : Engine) :
  sqlalchemy_create_engine w url = inr eng →
  engine_connect w eng = None →
  create_db_engine w url s
  = (Return eng, with_record (LogInfo ModuleLogger "Database engine created successfully.") s).
Proof.
  intros Hmk Hconn. unfold create_db_engine, try_except, bind, lift.
  rewrite Hmk. simpl. by rewrite Hconn.
Qed.

Lemma query_data_empty (w : World) (s : FieldDataProcessor) (eng : Engine)
    (sql : string) (t : DataFrame) :
  engine_connect w eng = None →
  pd_read_sql_query w sql eng = inr t →
  empty t = true →
  query_data w eng sql s
  = (Raise (ValueError "The query returned an empty DataFrame."),
     with_record
       (LogError ModuleLogger "SQL query failed. Error: "
          (Some (ValueError "The query returned an empty DataFrame.")))
       (with_record
          (LogError ModuleLogger "The query returned an empty DataFrame." None) s)).
Proof.
  intros Hconn Hq Hempty. unfold query_data, try_except, bind, lift.
  rewrite Hconn. simpl. rewrite Hq. simpl. by rewrite Hempty.
Qed.

(** C6.  When the engine can be made and connected to and the query yields
    a frame without rows, [process] on a fresh instance raises the
    [ValueError] of [query_data]; [self.df] is still [None], and the loggers
    were called for the start, the engine, and the failure only: no step
    after ingestion was announced or run. *)
Theorem process_empty_query (w : World) (cfg : config_params) (eng : Engine)
    (t : DataFrame) :
  sqlalchemy_create_engine w (cfg_db_path cfg) = inr eng →
  engine_connect w eng = None →
  pd_read_sql_query w (cfg_sql_query cfg) eng = inr t →
  index t = 0%nat →
  ∃ s',
    process w (init cfg)
      = (Raise (ValueError "The query returned an empty DataFrame."), s') ∧
    df s' = None ∧
    trace s'
    = [LogInfo InstanceLogger "Starting the data processing pipeline.";
       LogInfo ModuleLogger "Database engine created successfully.";
       LogError ModuleLogger "The query returned an empty DataFrame." None;
       LogError ModuleLogger "SQL query failed. Error: "
         (Some (ValueError "The query returned an empty DataFrame."));
       LogError InstanceLogger "Failed to ingest SQL data. Error: "
         (Some (ValueError "The query returned an empty DataFrame."));
       LogError InstanceLogger "Error occurred during the data processing pipeline: "
         (Some (ValueError "The query returned an empty DataFrame."))].
Proof.
  intros Hmk Hconn Hq Hrows.
  assert (empty t = true) as Hempty.
  { unfold empty. rewrite Hrows. done. }
  eexists. unfold process, try_except at 1.
  rewrite bind_log. unfold bind at 1. unfold ingest_sql_data, try_except at 1.
  rewrite bind_get_self. unfold bind at 1.
  rewrite (create_db_engine_ok w _ _ eng) by done.
  unfold bind at 1. unfold set_engine at 1. rewrite bind_get_self.
  unfold bind at 1.
  rewrite (query_data_empty w _ eng _ t) by done.
  split_and!; reflexivity.
Qed.

Lemma process_empty_query_witness :
  ∃ s',
    process (world_of (mkDataFrame 0 [("Field_ID", [])]) station_map) (init shipped_config)
      = (Raise (ValueError "The query returned an empty DataFrame."), s') ∧
    df s' = None ∧
    trace s'
    = [LogInfo InstanceLogger "Starting the data processing pipeline.";
       LogInfo ModuleLogger "Database engine created successfully.";
       LogError ModuleLogger "The query returned an empty DataFrame." None;
       LogError ModuleLogger "SQL query failed. Error: "
         (Some (ValueError "The query returned an empty DataFrame."));
       LogError InstanceLogger "Failed to ingest SQL data. Error: "
         (Some (ValueError "The query returned an empty DataFrame."));
       LogError InstanceLogger "Error occurred during the data processing pipeline: "
         (Some (ValueError "The query returned an empty DataFrame."))].
Proof.
  apply (process_empty_query (world_of (mkDataFrame 0 [("Field_ID", [])]) station_map)
           shipped_config (cfg_db_path shipped_config) (mkDataFrame 0 [("Field_ID", [])]));
    reflexivity.
Defined.

(** C7.  When the mapping URL serves an empty body, [pd.read_csv] has
    nothing to parse: [weather_station_mapping] raises [EmptyDataError], the
    instance keeps the frame it had on entry (the one [apply_corrections]
    left, when called from [process]), and only the two error records are
    added to the log. *)
Theorem weather_station_mapping_empty_body (w : World) (s : FieldDataProcessor) :
  http_body w (weather_map_data s) = inr "" →
  ∃ s',
    weather_station_mapping w s
      = (Raise (EmptyDataError "No columns to parse from file"), s') ∧
    df s' = df s ∧
    trace s'
    = trace s ++
      [LogError ModuleLogger
         "The URL does not point to a valid CSV file. Please check the URL and try again."
         None;
       LogError InstanceLogger "Failed to merge weather station mapping data. Error: "
         (Some (EmptyDataError "No columns to parse from file"))].
Proof.
  intros Hbody. eexists.
  unfold weather_station_mapping, try_except at 1. rewrite bind_get_self.
  unfold bind at 1. unfold read_from_web_CSV, try_except, bind at 1, lift, pd_read_csv.
  rewrite Hbody. simpl. split_and!; [reflexivity | reflexivity |].
  simpl. by rewrite <- app_assoc.
Qed.

Lemma weather_station_mapping_empty_body_witness :
  ∃ s',
    weather_station_mapping
      (mkWorld inr (λ _, None) (λ _ _, inr survey) (λ _, inr "") (λ _, inr station_map))
      (with_df labelled_survey (init shipped_config))
      = (Raise (EmptyDataError "No columns to parse from file"), s') ∧
    df s' = df (with_df labelled_survey (init shipped_config)) ∧
    trace s'
    = trace (with_df labelled_survey (init shipped_config)) ++
      [LogError ModuleLogger
         "The URL does not point to a valid CSV file. Please check the URL and try again."
         None;
       LogError InstanceLogger "Failed to merge weather station mapping data. Error: "
         (Some (EmptyDataError "No columns to parse from file"))].
Proof.
  apply (weather_station_mapping_empty_body
           (mkWorld inr (λ _, None) (λ _ _, inr survey) (λ _, inr "") (λ _, inr station_map))
           (with_df labelled_survey (init shipped_config))).
  reflexivity.
Defined.

(** ** The left join *)



Lemma row_matches_nonempty (f : bool) (rk : list value) (i : nat) (k : value) :
  row_matches f rk i k ≠ [].
Proof. unfold row_matches. by destruct (positions f k rk). Qed.






Lemma length_join_nonempty {A} (ls : list (list A)) :
  Forall (λ l, l ≠ []) ls → (length ls ≤ length (mjoin ls))%nat.
Proof.
  induction 1 as [|l ls Hl _ IH]; [done |].
  simpl. rewrite length_app. destruct l; [done |]. simpl. lia.
Qed.

Lemma indexer_length (f : bool) (lk rk : list value) :
  (length lk ≤ length (left_join_indexer f lk rk))%nat.
Proof.
  unfold left_join_indexer.
  rewrite <- (length_imap (row_matches f rk) lk) at 1.
  apply length_join_nonempty, Forall_forall.
  intros l (i & k & -> & _)%elem_of_lookup_imap. apply row_matches_nonempty.
Qed.

Lemma length_take_left (ix : list (nat * option nat)) (x : list value) :
  length (take_left ix x) = length ix.
Proof. unfold take_left. by rewrite length_fmap. Qed.

Lemma length_take_right (ix : list (nat * option nat)) (x : list value) :
  length (take_right ix x) = length ix.
Proof. unfold take_right. by rewrite length_fmap. Qed.

Lemma getitem_elem (label : string) (t : DataFrame) (x : list value) :
  x ∈ getitem label t ↔ (label, x) ∈ data t.
Proof.
  unfold getitem. rewrite list_elem_of_fmap. split.
  - intros ([c y] & -> & [Hc Hin]%list_elem_of_filter). simpl in *. by subst.
  - intros Hin. exists (label, x). split; [done |]. by apply list_elem_of_filter.
Qed.

Lemma merge_left_inv (t m t' : DataFrame) (on : string) :
  merge_left t m on = inr t' →
  ∃ lk rk,
    getitem on t = [lk] ∧ getitem on m = [rk] ∧
    t' = {| index := length (left_join_indexer (float_keys lk rk) lk rk);
            data := merge_left_columns on (left_join_indexer (float_keys lk rk) lk rk) t m
                    ++ merge_right_columns on
                         (left_join_indexer (float_keys lk rk) lk rk) t m |}.
Proof.
  unfold merge_left.
  destruct (getitem on m) as [|rk [|??]], (getitem on t) as [|lk [|??]]; try done.
  intros [= <-]. by exists lk, rk.
Qed.



Lemma read_from_web_CSV_inv (w : World) (URL : string) (s s1 : FieldDataProcessor)
    (m : DataFrame) :
  read_from_web_CSV w URL s = (Return m, s1) →
  pd_read_csv w URL = inr m ∧ df s1 = df s.
Proof.
  unfold read_from_web_CSV, try_except, bind, lift.
  destruct (pd_read_csv w URL) as [e|m0]; simpl.
  - by destruct e.
  - by intros [= <- <-].
Qed.

Lemma weather_station_mapping_inv (w : World) (s s' : FieldDataProcessor) :
  weather_station_mapping w s = (Return tt, s') →
  ∃ m t t',
    pd_read_csv w (weather_map_data s) = inr m ∧ df s = Some t ∧
    merge_left t m "Field_ID" = inr t' ∧ df s' = Some t'.
Proof.
  intros Hrun. unfold weather_station_mapping in Hrun.
  apply try_except_Return_inv in Hrun; [| by eauto].
  rewrite bind_get_self in Hrun.
  apply bind_Return_inv in Hrun as (m & s1 & Hread & Hrun).
  apply read_from_web_CSV_inv in Hread as [Hcsv Hdf1].
  destruct (df s1) as [t|] eqn:Hdf.
  - rewrite (bind_self_df _ _ s1 t Hdf) in Hrun.
    destruct (merge_left t m "Field_ID") as [e|t'] eqn:Hmerge; [done |].
    simpl in Hrun. rewrite bind_ret, bind_set_df in Hrun.
    injection Hrun as <-. by exists m, t, t'.
  - unfold bind, self_df, bind, get_self in Hrun. by rewrite Hdf in Hrun.
Qed.

Lemma filter_length_split {A} (P : A → Prop) `{!∀ x, Decision (P x)} (l : list A) :
  (length (filter P l) + length (filter (λ x, ¬ P x) l) = length l)%nat.
Proof.
  induction l as [|x l IH]; [done |]. rewrite !filter_cons.
  destruct (decide (P x)) as [HP|HP].
  - rewrite decide_False by tauto. simpl. lia.
  - rewrite decide_True by done. simpl. lia.
Qed.








(** ** The pipeline on the sample data *)

(** Three fields, the two labels swapped on entry, one misspelt crop, and a
    mapping that knows fields 1 and 2: [process] leaves three rows, the
    labels exchanged, [cassaval] corrected, the negative elevation made
    positive, and no weather station for field 3; the stations of fields 1
    and 2 have become floats, in a column that holds a NaN. *)
Example process_end_to_end :
  ∃ s',
    process (world_of survey station_map) (init shipped_config) = (Return tt, s') ∧
    df s' = Some
      {| index := 3;
         data := [("Field_ID", [VNum 1; VNum 2; VNum 3]);
                  ("Elevation", [VNum 5; VNum 7; VNull]);
                  ("Crop_type", [VStr "cassava"; VStr "tea"; VStr "wheat"]);
                  ("Annual_yield", [VNum 10; VNum 20; VNum 30]);
                  ("Weather_station", [VFloat 4; VFloat 0; VNull])] |}.
Proof. eexists. split; vm_compute; reflexivity. Qed.

(** * Further properties of the code *)

(** ** [data_ingestion.py] *)

Lemma only_logs_refl (s : FieldDataProcessor) : only_logs s s.
Proof. exists []. destruct s. simpl. by rewrite app_nil_r. Qed.

Lemma only_logs_record (r : log_record) (s s' : FieldDataProcessor) :
  only_logs s s' → only_logs s (with_record r s').
Proof.
  intros (rs & ->). exists (rs ++ [r]). unfold with_record. simpl. by rewrite app_assoc.
Qed.

Lemma only_logs_trans (s1 s2 s3 : FieldDataProcessor) :
  only_logs s1 s2 → only_logs s2 s3 → only_logs s1 s3.
Proof.
  intros (rs & ->) (rs' & ->). exists (rs ++ rs'). simpl. by rewrite app_assoc.
Qed.

Lemma only_logs_df (s s' : FieldDataProcessor) : only_logs s s' → df s' = df s.
Proof. by intros (rs & ->). Qed.

Lemma only_logs_engine (s s' : FieldDataProcessor) : only_logs s s' → engine s' = engine s.
Proof. by intros (rs & ->). Qed.

(** X1.  When making the engine, or connecting to it, raises [ImportError],
    [create_db_engine] does not re-raise it: its handler names a variable
    [e] that is not bound there, so the caller gets [UnboundLocalError]
    after the installation hint has been logged. *)
Theorem create_db_engine_masks_import_error (w : World) (url msg : string)
    (s : FieldDataProcessor) :
  sqlalchemy_create_engine w url = inl (ImportError msg)
  ∨ (∃ eng, sqlalchemy_create_engine w url = inr eng ∧
            engine_connect w eng = Some (ImportError msg)) →
  create_db_engine w url s
  = (Raise (UnboundLocalError "e"),
     with_record
       (LogError ModuleLogger
          "SQLAlchemy is required to use this function. Please install it first." None) s).
Proof.
  intros [Hmk | (eng & Hmk & Hconn)];
    unfold create_db_engine, try_except, bind, lift; rewrite Hmk; simpl;
    [done | by rewrite Hconn].
Qed.

Lemma create_db_engine_masks_import_error_witness :
  create_db_engine world_without_driver "postgresql://survey" (init shipped_config)
  = (Raise (UnboundLocalError "e"),
     with_record
       (LogError ModuleLogger
          "SQLAlchemy is required to use this function. Please install it first." None)
       (init shipped_config)).
Proof.
  apply (create_db_engine_masks_import_error world_without_driver "postgresql://survey"
           "No module named 'psycopg2'").
  left. reflexivity.
Defined.

(** X2.  Every other failure of making the engine or of the test connection
    is logged once and re-raised as it is. *)
Theorem create_db_engine_reraises (w : World) (url : string) (e : exn)
    (s : FieldDataProcessor) :
  (∀ msg, e ≠ ImportError msg) →
  sqlalchemy_create_engine w url = inl e
  ∨ (∃ eng, sqlalchemy_create_engine w url = inr eng ∧ engine_connect w eng = Some e) →
  create_db_engine w url s
  = (Raise e,
     with_record
       (LogError ModuleLogger "Failed to create database engine. Error: " (Some e)) s).
Proof.
  intros Hne [Hmk | (eng & Hmk & Hconn)];
    unfold create_db_engine, try_except, bind, lift; rewrite Hmk; simpl;
    rewrite ?Hconn; simpl; destruct e; try done; by destruct (Hne msg).
Qed.

Lemma create_db_engine_reraises_witness :
  create_db_engine
    (mkWorld (λ _, inl (ValueError "Could not parse SQLAlchemy URL")) (λ _, None)
       (λ _ _, inr survey) (λ _, inr "") (λ _, inr station_map))
    "not a url" (init shipped_config)
  = (Raise (ValueError "Could not parse SQLAlchemy URL"),
     with_record
       (LogError ModuleLogger "Failed to create database engine. Error: "
          (Some (ValueError "Could not parse SQLAlchemy URL")))
       (init shipped_config)).
Proof.
  apply create_db_engine_reraises.
  - intros msg. discriminate.
  - left. reflexivity.
Defined.

Lemma create_db_engine_inv (w : World) (url : string) (s s' : FieldDataProcessor)
    (eng : Engine) :
  create_db_engine w url s = (Return eng, s') →
  sqlalchemy_create_engine w url = inr eng ∧ engine_connect w eng = None ∧
  only_logs s s'.
Proof.
  unfold create_db_engine, try_except, bind, lift.
  destruct (sqlalchemy_create_engine w url) as [e|eng0]; simpl.
  - by destruct e.
  - destruct (engine_connect w eng0) as [e|] eqn:Hconn; simpl.
    + by destruct e.
    + intros [= <- <-]. split_and!; [done | done |].
      apply only_logs_record, only_logs_refl.
Qed.

Lemma create_db_engine_only_logs (w : World) (url : string) (s s' : FieldDataProcessor)
    (o : outcome Engine) :
  create_db_engine w url s = (o, s') → only_logs s s'.
Proof.
  unfold create_db_engine, try_except, bind, lift.
  destruct (sqlalchemy_create_engine w url) as [e|eng0]; simpl.
  - destruct e; intros [= <- <-]; apply only_logs_record, only_logs_refl.
  - destruct (engine_connect w eng0) as [e|]; simpl.
    + destruct e; intros [= <- <-]; apply only_logs_record, only_logs_refl.
    + intros [= <- <-]. apply only_logs_record, only_logs_refl.
Qed.

Lemma query_data_inv (w : World) (eng : Engine) (sql : string)
    (s s' : FieldDataProcessor) (t : DataFrame) :
  query_data w eng sql s = (Return t, s') →
  pd_read_sql_query w sql eng = inr t ∧ empty t = false ∧ only_logs s s'.
Proof.
  unfold query_data, try_except, bind, lift.
  destruct (engine_connect w eng) as [e|]; simpl; [by destruct e |].
  destruct (pd_read_sql_query w sql eng) as [e|t0]; simpl; [by destruct e |].
  destruct (empty t0) eqn:Hempty; simpl; [done |].
  intros [= <- <-]. split_and!; [done | done |]. apply only_logs_record, only_logs_refl.
Qed.

Lemma query_data_only_logs (w : World) (eng : Engine) (sql : string)
    (s s' : FieldDataProcessor) (o : outcome DataFrame) :
  query_data w eng sql s = (o, s') → only_logs s s'.
Proof.
  unfold query_data, try_except, bind, lift.
  destruct (engine_connect w eng) as [e0|]; simpl.
  { destruct e0; intros [= <- <-]; apply only_logs_record, only_logs_refl. }
  destruct (pd_read_sql_query w sql eng) as [e0|t0]; simpl.
  { destruct e0; intros [= <- <-]; apply only_logs_record, only_logs_refl. }
  destruct (empty t0); simpl; intros [= <- <-].
  - apply only_logs_record, only_logs_record, only_logs_refl.
  - apply only_logs_record, only_logs_refl.
Qed.

Lemma empty_false (t : DataFrame) : empty t = false → index t ≠ 0%nat ∧ data t ≠ [].
Proof.
  unfold empty.
  by intros [H1%bool_decide_eq_false H2%bool_decide_eq_false]%orb_false_iff.
Qed.

(** X3.  [query_data] never hands back an empty frame: what it returns is
    the frame the query produced, with rows and with columns. *)
Theorem query_data_returns_nonempty (w : World) (eng : Engine) (sql : string)
    (s s' : FieldDataProcessor) (t : DataFrame) :
  query_data w eng sql s = (Return t, s') →
  pd_read_sql_query w sql eng = inr t ∧
  index t ≠ 0%nat ∧ data t ≠ [] ∧
  s' = with_record (LogInfo ModuleLogger "Query executed successfully.") s.
Proof.
  unfold query_data, try_except, bind, lift.
  destruct (engine_connect w eng) as [e|]; simpl; [by destruct e |].
  destruct (pd_read_sql_query w sql eng) as [e|t0]; simpl; [by destruct e |].
  destruct (empty t0) eqn:Hempty; simpl; [done |].
  intros [= <- <-]. unfold empty in Hempty.
  apply orb_false_iff in Hempty as [H1%bool_decide_eq_false H2%bool_decide_eq_false].
  done.
Qed.

Lemma query_data_returns_nonempty_witness :
  pd_read_sql_query (world_of survey station_map) "SELECT *" "db" = inr survey ∧
  index survey ≠ 0%nat ∧ data survey ≠ [] ∧
  (query_data (world_of survey station_map) "db" "SELECT *" (init shipped_config)).2
  = with_record (LogInfo ModuleLogger "Query executed successfully.") (init shipped_config).
Proof.
  apply (query_data_returns_nonempty (world_of survey station_map) "db" "SELECT *"
           (init shipped_config)).
  reflexivity.
Defined.

(** X4.  An exception out of [query_data] is the one the connection or the
    query raised, or the [ValueError] for an empty result; nothing but the
    log has changed. *)
Theorem query_data_raises (w : World) (eng : Engine) (sql : string)
    (s s' : FieldDataProcessor) (e : exn) :
  query_data w eng sql s = (Raise e, s') →
  (engine_connect w eng = Some e
   ∨ (engine_connect w eng = None ∧ pd_read_sql_query w sql eng = inl e)
   ∨ (∃ t, engine_connect w eng = None ∧ pd_read_sql_query w sql eng = inr t ∧
           empty t = true ∧ e = ValueError "The query returned an empty DataFrame."))
  ∧ only_logs s s'.
Proof.
  unfold query_data, try_except, bind, lift.
  destruct (engine_connect w eng) as [e0|]; simpl.
  { destruct e0; intros [= <- <-];
      (split; [by left | apply only_logs_record, only_logs_refl]). }
  destruct (pd_read_sql_query w sql eng) as [e0|t0]; simpl.
  { destruct e0; intros [= <- <-];
      (split; [right; by left | apply only_logs_record, only_logs_refl]). }
  destruct (empty t0) eqn:Hempty; simpl; [| done].
  intros [= <- <-]. split.
  - right. right. by exists t0.
  - apply only_logs_record, only_logs_record, only_logs_refl.
Qed.

Lemma query_data_raises_witness :
  (engine_connect (world_of (mkDataFrame 0 []) station_map) "db"
   = Some (ValueError "The query returned an empty DataFrame.")
   ∨ (engine_connect (world_of (mkDataFrame 0 []) station_map) "db" = None ∧
      pd_read_sql_query (world_of (mkDataFrame 0 []) station_map) "SELECT *" "db"
      = inl (ValueError "The query returned an empty DataFrame."))
   ∨ (∃ t, engine_connect (world_of (mkDataFrame 0 []) station_map) "db" = None ∧
           pd_read_sql_query (world_of (mkDataFrame 0 []) station_map) "SELECT *" "db"
           = inr t ∧
           empty t = true ∧
           ValueError "The query returned an empty DataFrame."
           = ValueError "The query returned an empty DataFrame."))
  ∧ only_logs (init shipped_config)
      (query_data (world_of (mkDataFrame 0 []) station_map) "db" "SELECT *"
         (init shipped_config)).2.
Proof.
  apply (query_data_raises (world_of (mkDataFrame 0 []) station_map) "db" "SELECT *"
           (init shipped_config)).
  reflexivity.
Defined.

(** X5.  Whatever goes wrong while fetching or parsing the CSV (the server
    cannot be reached, the body is empty, the parser gives up),
    [read_from_web_CSV] logs one record and re-raises that very exception. *)
Theorem read_from_web_CSV_reraises (w : World) (URL : string) (e : exn)
    (s : FieldDataProcessor) :
  http_body w URL = inl e
  ∨ (http_body w URL = inr "" ∧ e = EmptyDataError "No columns to parse from file")
  ∨ (∃ body, http_body w URL = inr body ∧ body ≠ "" ∧ csv_parse w body = inl e) →
  ∃ msg oe,
    read_from_web_CSV w URL s = (Raise e, with_record (LogError ModuleLogger msg oe) s).
Proof.
  intros Hfail.
  assert (pd_read_csv w URL = inl e) as Hcsv.
  { unfold pd_read_csv.
    destruct Hfail as [-> | [[-> ->] | (body & -> & Hne & Hparse)]]; [done | done |].
    by rewrite decide_False. }
  unfold read_from_web_CSV, try_except, bind, lift. rewrite Hcsv. simpl.
  destruct e; by eexists _, _.
Qed.

Lemma read_from_web_CSV_reraises_witness :
  ∃ msg oe,
    read_from_web_CSV world_offline "https://example.org/map.csv" (init shipped_config)
    = (Raise (OtherError "URLError" "Name or service not known"),
       with_record (LogError ModuleLogger msg oe) (init shipped_config)).
Proof.
  apply (read_from_web_CSV_reraises world_offline "https://example.org/map.csv").
  left. reflexivity.
Defined.

Lemma read_from_web_CSV_only_logs (w : World) (URL : string) (s s' : FieldDataProcessor)
    (o : outcome DataFrame) :
  read_from_web_CSV w URL s = (o, s') → only_logs s s'.
Proof.
  unfold read_from_web_CSV, try_except, bind, lift.
  destruct (pd_read_csv w URL) as [e|m]; simpl.
  - destruct e; intros [= <- <-]; apply only_logs_record, only_logs_refl.
  - intros [= <- <-]. apply only_logs_record, only_logs_refl.
Qed.

(** ** [ingest_sql_data] *)

Lemma bind_set_engine {B} (e : Engine) (k : unit → M B) (s : FieldDataProcessor) :
  bind (set_engine e) k s = k tt (with_engine e s).
Proof. done. Qed.

Lemma ingest_sql_data_inv (w : World) (s s' : FieldDataProcessor) (t : DataFrame) :
  ingest_sql_data w s = (Return t, s') →
  ∃ eng,
    sqlalchemy_create_engine w (db_path s) = inr eng ∧
    pd_read_sql_query w (sql_query s) eng = inr t ∧
    df s' = Some t ∧ engine s' = Some eng ∧
    index t ≠ 0%nat ∧ data t ≠ [].
Proof.
  intros Hrun. unfold ingest_sql_data in Hrun.
  apply try_except_Return_inv in Hrun; [| by eauto].
  rewrite bind_get_self in Hrun.
  apply bind_Return_inv in Hrun as (eng & s1 & Hmk & Hrun).
  apply create_db_engine_inv in Hmk as (Hmk & _ & Hs1).
  rewrite bind_set_engine, bind_get_self in Hrun.
  apply bind_Return_inv in Hrun as (t0 & s2 & Hq & Hrun).
  apply query_data_inv in Hq as (Hq & Hempty & Hs2).
  rewrite bind_set_df, bind_log in Hrun. injection Hrun as <- <-.
  destruct Hs1 as (rs & ->). simpl in Hq.
  exists eng. split_and!; try done.
  - by apply only_logs_engine in Hs2.
  - by apply empty_false.
  - by apply empty_false.
Qed.

(** X6.  When [ingest_sql_data] returns, the frame it returns is the one the
    configured query produced on the engine made from the configured path;
    that frame is now [self.df], the engine is [self.engine], and the frame
    has rows and columns. *)
Theorem ingest_sql_data_returns (w : World) (s s' : FieldDataProcessor) (t : DataFrame) :
  ingest_sql_data w s = (Return t, s') →
  ∃ eng,
    sqlalchemy_create_engine w (db_path s) = inr eng ∧
    pd_read_sql_query w (sql_query s) eng = inr t ∧
    df s' = Some t ∧ engine s' = Some eng ∧
    index t ≠ 0%nat ∧ data t ≠ [].
Proof. apply ingest_sql_data_inv. Qed.

Lemma ingest_sql_data_returns_witness :
  ∃ eng,
    sqlalchemy_create_engine (world_of survey station_map)
      (db_path (init shipped_config)) = inr eng ∧
    pd_read_sql_query (world_of survey station_map) (sql_query (init shipped_config)) eng
    = inr survey ∧
    df (ingest_sql_data (world_of survey station_map) (init shipped_config)).2
    = Some survey ∧
    engine (ingest_sql_data (world_of survey station_map) (init shipped_config)).2
    = Some eng ∧
    index survey ≠ 0%nat ∧ data survey ≠ [].
Proof.
  apply (ingest_sql_data_returns (world_of survey station_map) (init shipped_config)).
  reflexivity.
Defined.

(** X7.  When [ingest_sql_data] raises, [self.df] is what it was before the
    call, and the last record of the log is the method's own error record
    for the exception it raises. *)
Theorem ingest_sql_data_raises (w : World) (s s' : FieldDataProcessor) (e : exn) :
  ingest_sql_data w s = (Raise e, s') →
  df s' = df s ∧
  last (trace s')
  = Some (LogError InstanceLogger "Failed to ingest SQL data. Error: " (Some e)).
Proof.
  unfold ingest_sql_data, try_except. rewrite bind_get_self. unfold bind at 1.
  destruct (create_db_engine w (db_path s) s) as [[eng|e0|] s1] eqn:Hmk.
  - apply create_db_engine_only_logs in Hmk.
    rewrite bind_set_engine, bind_get_self. unfold bind at 1.
    destruct (query_data w eng (sql_query (with_engine eng s1)) (with_engine eng s1))
      as [[t|e1|] s2] eqn:Hq.
    + rewrite bind_set_df, bind_log. done.
    + apply query_data_only_logs in Hq. unfold bind, log, raise. intros [= <- <-].
      split; [| apply last_snoc].
      simpl. rewrite (only_logs_df _ _ Hq). simpl. by apply only_logs_df.
    + done.
  - apply create_db_engine_only_logs in Hmk. unfold bind, log, raise. intros [= <- <-].
    split; [| apply last_snoc]. simpl. by apply only_logs_df.
  - done.
Qed.

Lemma ingest_sql_data_raises_witness :
  df (ingest_sql_data world_without_driver (with_df survey (init shipped_config))).2
  = df (with_df survey (init shipped_config)) ∧
  last (trace (ingest_sql_data world_without_driver
                 (with_df survey (init shipped_config))).2)
  = Some (LogError InstanceLogger "Failed to ingest SQL data. Error: "
            (Some (UnboundLocalError "e"))).
Proof.
  apply (ingest_sql_data_raises world_without_driver (with_df survey (init shipped_config))).
  reflexivity.
Defined.

(** ** [rename_columns] at its edges *)

Lemma temp_name_loop_S (fuel : nat) (cols : list string) (name : string) :
  temp_name_loop (S fuel) cols name
  = if bool_decide (name ∈ cols) then temp_name_loop fuel cols (name +:+ "_")
    else Some name.
Proof. done. Qed.

Lemma string_app_nil_r (a : string) : a +:+ "" = a.
Proof.
  induction a as [|c a IH]; [done |].
  change (String c a +:+ "") with (String c (a +:+ "")). by rewrite IH.
Qed.

Lemma string_app_assoc (a b c : string) : (a +:+ b) +:+ c = a +:+ (b +:+ c).
Proof.
  induction a as [|x a IH]; [done |].
  change (String x ((a +:+ b) +:+ c) = String x (a +:+ (b +:+ c))). by rewrite IH.
Qed.

Lemma temp_name_loop_least (cols : list string) (fuel : nat) (name : string) :
  (length (at_least (String.length name) cols) < fuel)%nat →
  ∃ k, (k ≤ length (at_least (String.length name) cols))%nat ∧
       temp_name_loop fuel cols name = Some (name +:+ underscores k) ∧
       ((name +:+ underscores k) ∉ cols) ∧
       ∀ k', (k' < k)%nat → (name +:+ underscores k') ∈ cols.
Proof.
  revert name. induction fuel as [|fuel IH]; intros name Hlt; [lia |].
  rewrite temp_name_loop_S. case_bool_decide as Hin.
  - pose proof (at_least_shrinks cols name Hin) as Hs.
    destruct (IH (name +:+ "_")) as (k & Hk & Hloop & Hfresh & Hleast).
    { rewrite string_length_app. simpl.
      replace (String.length name + 1)%nat with (S (String.length name)) by lia. lia. }
    rewrite string_length_app in Hk. simpl in Hk.
    replace (String.length name + 1)%nat with (S (String.length name)) in Hk by lia.
    exists (S k). simpl. rewrite <- string_app_assoc. split_and!; [lia | done | done |].
    intros [|k'] Hk'; simpl.
    + by rewrite string_app_nil_r.
    + rewrite <- string_app_assoc. apply Hleast. lia.
  - exists 0%nat. simpl. rewrite string_app_nil_r. split_and!; [lia | done | done |].
    intros k' Hk'. lia.
Qed.

(** X8.  The scratch-name loop stops after at most as many rounds as there
    are labels, on the first of [name], [name_], [name__], ... that no column
    carries. *)
Theorem scratch_name_is_first_free (cols : list string) (name : string) :
  ∃ k, (k ≤ length cols)%nat ∧
       temp_name_loop (S (length cols)) cols name = Some (name +:+ underscores k) ∧
       ((name +:+ underscores k) ∉ cols) ∧
       ∀ k', (k' < k)%nat → (name +:+ underscores k') ∈ cols.
Proof.
  pose proof (length_filter (λ c, (String.length name ≤ String.length c)%nat) cols) as Hle.
  destruct (temp_name_loop_least cols (S (length cols)) name) as (k & Hk & H).
  { unfold at_least. lia. }
  exists k. split; [unfold at_least in Hk; lia | done].
Qed.

(** X9.  [rename_columns] raises in two situations only, and in neither
    because of the labels of the frame: with an empty rename dict
    ([IndexError], nothing logged or changed), and before any frame has been
    loaded ([AttributeError], after the swap has already been logged). *)
Theorem rename_columns_raises (s s' : FieldDataProcessor) (e : exn) :
  rename_columns s = (Raise e, s') ↔
  (columns_to_rename s = [] ∧ e = IndexError "list index out of range" ∧ s' = s)
  ∨ (∃ column1 column2 rest,
       columns_to_rename s = (column1, column2) :: rest ∧ df s = None ∧
       e = AttributeError "'NoneType' object has no attribute 'columns'" ∧
       s' = logged ("Swapped columns: " +:+ column1 +:+ " with " +:+ column2) s).
Proof.
  destruct (columns_to_rename s) as [|[column1 column2] rest] eqn:Hcfg.
  - unfold rename_columns. rewrite bind_get_self, Hcfg, bind_raise. split.
    + intros [= <- <-]. by left.
    + intros [(_ & -> & ->) | (? & ? & ? & ? & _)]; done.
  - destruct (df s) as [t|] eqn:Hdf.
    + destruct (rename_columns_runs s t column1 column2 rest Hcfg Hdf)
        as (temp_name & _ & ->).
      split; [done |]. intros [(? & _) | (? & ? & ? & _ & ? & _)]; done.
    + unfold rename_columns. rewrite bind_get_self, Hcfg, bind_ret. cbn [fst snd].
      rewrite bind_log. unfold bind, self_df, bind, get_self.
      change (df (with_record _ s)) with (df s). rewrite Hdf. simpl. split.
      * intros [= <- <-]. right. by exists column1, column2, rest.
      * intros [(? & _) | (c1 & c2 & r & [= <- <- <-] & _ & -> & ->)]; done.
Qed.

Lemma rename_columns_raises_witness :
  rename_columns (init shipped_config)
  = (Raise (AttributeError "'NoneType' object has no attribute 'columns'"),
     logged "Swapped columns: Annual_yield with Crop_type" (init shipped_config)).
Proof.
  apply (rename_columns_raises (init shipped_config)).
  right. exists "Annual_yield", "Crop_type", [("Crop_type", "Annual_yield")].
  split_and!; reflexivity.
Defined.

Lemma rename_fixes (m : gmap string string) (t : DataFrame) :
  (∀ c, c ∈ columns t → default c (m !! c) = c) → rename m t = t.
Proof.
  intros Hm. destruct t as [n d]. unfold rename, columns in *. simpl in *. f_equal.
  rewrite <- (list_fmap_id d) at 2. apply Forall_fmap_ext, Forall_forall.
  intros [c x] Hc. simpl. rewrite Hm; [done |].
  apply list_elem_of_fmap. by exists (c, x).
Qed.

(** When the first configured name is itself the scratch name the loop
    settles on, the two [rename] calls undo each other. *)
Lemma two_renames_scratch_collision (t : DataFrame) (column2 temp_name : string) :
  temp_name ∉ columns t →
  rename {[temp_name := column2]}
    (rename (<[column2 := temp_name]> {[temp_name := temp_name]}) t) = t.
Proof.
  intros Hfresh. destruct t as [n d]. unfold rename, columns in *. simpl in *. f_equal.
  rewrite <- list_fmap_compose. rewrite <- (list_fmap_id d) at 2.
  apply Forall_fmap_ext, Forall_forall. intros [c x] Hc. simpl. f_equal.
  assert (c ≠ temp_name) as Hct.
  { intros ->. apply Hfresh, list_elem_of_fmap. by exists (temp_name, x). }
  destruct (decide (c = column2)) as [->|Hc2].
  - rewrite lookup_insert_eq. simpl. by rewrite lookup_singleton_eq.
  - rewrite lookup_insert_ne by done. rewrite lookup_singleton_ne by done. simpl.
    by rewrite lookup_singleton_ne.
Qed.

Lemma swap_label_inj (a b : string) : Inj (=) (=) (swap_label a b).
Proof.
  intros x y Hxy. rewrite <- (swap_label_involutive a b x), Hxy.
  apply swap_label_involutive.
Qed.

Lemma relabel_wf (f : string → string) (t : DataFrame) : wf t → wf (relabel f t).
Proof.
  unfold wf, relabel. simpl. intros Hwf. apply Forall_fmap.
  eapply Forall_impl; [exact Hwf | done].
Qed.

(** X10.  A rename dict whose first entry maps a name to itself makes
    [rename_columns] leave the frame exactly as it is, whether or not a
    column carries that name. *)
Theorem rename_columns_same_name (s : FieldDataProcessor) (t : DataFrame)
    (column : string) (rest : list (string * string)) :
  columns_to_rename s = (column, column) :: rest →
  df s = Some t →
  rename_columns s
  = (Return tt,
     with_df t (logged ("Swapped columns: " +:+ column +:+ " with " +:+ column) s)).
Proof.
  intros Hcfg Hdf.
  destruct (rename_columns_runs s t column column rest Hcfg Hdf)
    as (temp_name & Hfresh & ->).
  do 2 f_equal.
  rewrite (rename_fixes (<[column := column]> {[column := temp_name]}) t).
  - apply rename_fixes. intros c Hc. rewrite lookup_singleton_ne; [done |].
    by intros ->.
  - intros c Hc. destruct (decide (c = column)) as [->|Hne].
    + by rewrite lookup_insert_eq.
    + rewrite lookup_insert_ne by done. by rewrite lookup_singleton_ne.
Qed.

Lemma rename_columns_same_name_witness :
  rename_columns
    (mkProcessor "db" "SELECT *" [("Elevation", "Elevation")] ∅ "url" (Some survey) None [])
  = (Return tt,
     with_df survey
       (logged "Swapped columns: Elevation with Elevation"
          (mkProcessor "db" "SELECT *" [("Elevation", "Elevation")] ∅ "url"
             (Some survey) None []))).
Proof.
  apply (rename_columns_same_name _ survey "Elevation" []); reflexivity.
Defined.

(** X11.  Whatever the labels of the frame and whichever of the two
    configured names they include, [rename_columns] returns and keeps the
    shape of the frame: as many labels as before, the same row index,
    distinct labels stay distinct (the scratch name never collides), and a
    well-formed frame stays well-formed. *)
Theorem rename_columns_keeps_shape (s : FieldDataProcessor) (t : DataFrame)
    (column1 column2 : string) (rest : list (string * string)) :
  columns_to_rename s = (column1, column2) :: rest →
  df s = Some t →
  ∃ t',
    rename_columns s
    = (Return tt,
       with_df t' (logged ("Swapped columns: " +:+ column1 +:+ " with " +:+ column2) s)) ∧
    length (columns t') = length (columns t) ∧ index t' = index t ∧
    (NoDup (columns t) → NoDup (columns t')) ∧ (wf t → wf t').
Proof.
  intros Hcfg Hdf.
  destruct (rename_columns_runs s t column1 column2 rest Hcfg Hdf)
    as (temp_name & Hfresh & ->).
  eexists. split; [reflexivity |].
  destruct (decide (column1 = temp_name)) as [->|Hne].
  - rewrite two_renames_scratch_collision by done. done.
  - rewrite two_renames_swap by done. rewrite columns_relabel, length_fmap.
    split_and!; [done | done | | apply relabel_wf].
    apply (@NoDup_fmap_2 _ _ (swap_label column1 column2) (swap_label_inj column1 column2)).
Qed.

Lemma rename_columns_keeps_shape_witness :
  ∃ t',
    rename_columns (with_df station_map (init shipped_config))
    = (Return tt,
       with_df t' (logged "Swapped columns: Annual_yield with Crop_type"
                     (with_df station_map (init shipped_config)))) ∧
    length (columns t') = length (columns station_map) ∧ index t' = index station_map ∧
    (NoDup (columns station_map) → NoDup (columns t')) ∧ (wf station_map → wf t').
Proof.
  apply (rename_columns_keeps_shape (with_df station_map (init shipped_config)) station_map
           "Annual_yield" "Crop_type" [("Crop_type", "Annual_yield")]); reflexivity.
Defined.

(** ** [apply_corrections] when it fails, and what it keeps *)

Lemma series_abs_text (x : list value) : numeric x = false → series_abs x = None.
Proof.
  unfold numeric, series_abs. intros Hx.
  assert (is_int64 x = false ∧ Exists (λ v, abs_cell v = None) x) as [-> Hex].
  { induction x as [|v x IH]; [done |]. simpl in *.
    destruct v as [| z | k | z]; simpl in Hx.
    - split; [done |]. right. by apply IH.
    - destruct (IH Hx) as [Hint Hex]. split; [by rewrite Hint, andb_false_r |].
      by right.
    - split; [done |]. by left.
    - split; [done |]. right. by apply IH. }
  apply mapM_None_2. eapply Exists_impl; [exact Hex |]. by intros v ->.
Qed.

Lemma frame_abs_text (sel : list (list value)) :
  forallb numeric sel = false → mapM series_abs sel = None.
Proof.
  intros Hsel. apply mapM_None_2.
  induction sel as [|x sel IH]; [done |]. simpl in Hsel.
  apply andb_false_iff in Hsel as [Hx | Hrest].
  - left. by apply series_abs_text.
  - right. by apply IH.
Qed.

(** X12.  When the sign correction cannot be done, because no column carries
    the label ([KeyError]) or because such a column holds text
    ([TypeError]), [apply_corrections] raises before anything is written:
    the instance is exactly what it was. *)
Theorem apply_corrections_sign_failure (s : FieldDataProcessor) (t : DataFrame)
    (column_name : option string) (abs_column : string) :
  df s = Some t →
  abs_column ∉ columns t ∨ forallb numeric (getitem abs_column t) = false →
  ∃ e,
    apply_corrections column_name (Some abs_column) s = (Raise e, s) ∧
    (abs_column ∉ columns t → e = KeyError abs_column) ∧
    (abs_column ∈ columns t → e = TypeError "bad operand type for abs(): 'str'").
Proof.
  intros Hdf Hfail. unfold apply_corrections, bind. simpl.
  rewrite (correct_sign_run s t abs_column Hdf).
  destruct (getitem abs_column t) as [|x sel] eqn:Hget.
  - apply getitem_nil_iff in Hget. exists (KeyError abs_column). by split_and!.
  - assert (abs_column ∈ columns t) as Hin.
    { destruct (decide (abs_column ∈ columns t)) as [|Hn]; [done |].
      apply getitem_nil_iff in Hn. by rewrite Hn in Hget. }
    destruct Hfail as [Hn | Hnum]; [done |].
    rewrite (frame_abs_text _ Hnum). eexists. by split_and!.
Qed.

Lemma apply_corrections_sign_failure_witness :
  ∃ e,
    apply_corrections None (Some "Crop_type")
      (with_df labelled_survey (init shipped_config))
    = (Raise e, with_df labelled_survey (init shipped_config)) ∧
    ("Crop_type" ∉ columns labelled_survey → e = KeyError "Crop_type") ∧
    ("Crop_type" ∈ columns labelled_survey →
     e = TypeError "bad operand type for abs(): 'str'").
Proof.
  apply (apply_corrections_sign_failure (with_df labelled_survey (init shipped_config))
           labelled_survey None "Crop_type").
  - reflexivity.
  - right. reflexivity.
Defined.

(** X13.  The two corrections are not undone together: when the categorical
    column is missing and the sign correction returns, [apply_corrections]
    raises [KeyError] for the categorical column and leaves the instance as
    the sign correction wrote it, [self.df] holding the rewritten frame. *)
Theorem apply_corrections_spelling_failure (s s1 : FieldDataProcessor) (t : DataFrame)
    (column_name abs_column : string) :
  df s = Some t →
  column_name ∉ columns t →
  correct_sign abs_column s = (Return tt, s1) →
  apply_corrections (Some column_name) (Some abs_column) s
  = (Raise (KeyError column_name), s1) ∧
  ∃ sel', mapM series_abs (getitem abs_column t) = Some sel' ∧
          df s1 = Some (setitem abs_column sel' t).
Proof.
  intros Hdf Hcn Hsign. split.
  - unfold apply_corrections, bind. simpl. rewrite Hsign.
    apply correct_sign_inv in Hsign as (t0 & sel' & Hdf0 & Hne & Hsel & ->).
    rewrite Hdf in Hdf0. injection Hdf0 as <-.
    erewrite correct_spelling_run by reflexivity.
    apply getitem_nil_iff in Hcn.
    rewrite getitem_setitem_ne by (by intros ->). by rewrite Hcn.
  - apply correct_sign_inv in Hsign as (t0 & sel' & Hdf0 & _ & Hsel & ->).
    rewrite Hdf in Hdf0. injection Hdf0 as <-. by exists sel'.
Qed.

Lemma apply_corrections_spelling_failure_witness :
  apply_corrections (Some "Crop") (Some "Elevation") (with_df survey (init shipped_config))
  = (Raise (KeyError "Crop"),
     (correct_sign "Elevation" (with_df survey (init shipped_config))).2) ∧
  ∃ sel', mapM series_abs (getitem "Elevation" survey) = Some sel' ∧
          df (correct_sign "Elevation" (with_df survey (init shipped_config))).2
          = Some (setitem "Elevation" sel' survey).
Proof.
  apply (apply_corrections_spelling_failure (with_df survey (init shipped_config)) _ survey
           "Crop" "Elevation").
  - reflexivity.
  - compute_done.
  - vm_compute. reflexivity.
Defined.

Lemma rewrites_wf (label : string) (f : list value → option (list value))
    (t t' : DataFrame) :
  (∀ x x', f x = Some x' → length x' = length x) →
  index t' = index t →
  rewrites label f (data t) (data t') →
  wf t → wf t'.
Proof.
  intros Hf Hidx Hrel Hwf. unfold wf in *. apply Forall_forall. intros c' Hc'.
  apply list_elem_of_lookup in Hc' as (j & Hj).
  destruct (Forall2_lookup_r _ _ _ _ _ Hrel Hj) as (c & Hc & _ & Hcf).
  rewrite Forall_forall in Hwf.
  assert (length c.2 = index t) as Hlen by (apply Hwf, list_elem_of_lookup; by exists j).
  rewrite Hidx. case_decide; [| by rewrite Hcf]. by rewrite (Hf _ _ Hcf).
Qed.

(** A returning call of [apply_corrections] on a well-formed frame, as two
    rewritings of columns. *)
Lemma apply_corrections_rewrites (s s' : FieldDataProcessor) (t : DataFrame)
    (column_name abs_column : string) :
  df s = Some t →
  wf t →
  apply_corrections (Some column_name) (Some abs_column) s = (Return tt, s') →
  ∃ ta tb,
    s' = with_df tb s ∧ index ta = index t ∧ index tb = index t ∧ wf ta ∧
    rewrites abs_column series_abs (data t) (data ta) ∧
    rewrites column_name
      (λ x, Some (series_apply (λ crop, dict_get (values_to_rename s) crop crop) x))
      (data ta) (data tb).
Proof.
  intros Hdf Hwf Hrun. unfold apply_corrections in Hrun. simpl in Hrun.
  apply bind_Return_inv in Hrun as ([] & s1 & Hsign & Hspell).
  apply correct_sign_inv in Hsign as (t0 & sel' & Hdf0 & _ & Hsel & ->).
  rewrite Hdf in Hdf0. injection Hdf0 as <-.
  pose proof (setitem_rewrites abs_column series_abs t sel' Hsel) as Hrel1.
  assert (wf (setitem abs_column sel' t)) as Hwfa.
  { apply (rewrites_wf abs_column series_abs t); [| done | done | done].
    apply series_abs_length. }
  apply (correct_spelling_rewrites _ _ _ (setitem abs_column sel' t)) in Hspell
    as (tb & -> & Hidx & Hrel2); [| done | done].
  exists (setitem abs_column sel' t), tb. by split_and!.
Qed.

(** X14.  A returning call of [apply_corrections] changes nothing of the
    instance but [self.df], and of the frame only cells: labels, their
    order and the row index are kept, and a well-formed frame stays
    well-formed. *)
Theorem apply_corrections_keeps_shape (s s' : FieldDataProcessor) (t : DataFrame)
    (column_name abs_column : string) :
  df s = Some t →
  wf t →
  apply_corrections (Some column_name) (Some abs_column) s = (Return tt, s') →
  ∃ t',
    s' = with_df t' s ∧ columns t' = columns t ∧ index t' = index t ∧ wf t'.
Proof.
  intros Hdf Hwf Hrun.
  destruct (apply_corrections_rewrites s s' t column_name abs_column Hdf Hwf Hrun)
    as (ta & tb & -> & Hia & Hib & Hwfa & Hrel1 & Hrel2).
  exists tb. split_and!; [done | | done |].
  - unfold columns. rewrite (rewrites_columns _ _ _ _ Hrel2).
    apply (rewrites_columns _ _ _ _ Hrel1).
  - apply (rewrites_wf _ _ ta tb) in Hrel2; [done | | congruence | done].
    intros x x' [= <-]. unfold series_apply. by rewrite length_fmap.
Qed.

Lemma apply_corrections_keeps_shape_witness :
  ∃ t',
    (apply_corrections (Some "Crop_type") (Some "Elevation")
       (with_df labelled_survey (init shipped_config))).2
    = with_df t' (with_df labelled_survey (init shipped_config)) ∧
    columns t' = columns labelled_survey ∧ index t' = index labelled_survey ∧ wf t'.
Proof.
  apply (apply_corrections_keeps_shape (with_df labelled_survey (init shipped_config)) _
           labelled_survey "Crop_type" "Elevation").
  - reflexivity.
  - unfold wf. simpl. repeat constructor.
  - vm_compute. reflexivity.
Defined.

(** X15.  When no corrected spelling is itself a key of the correction map,
    a returning call of [apply_corrections] leaves no key of the map in the
    categorical column: every misspelling the map knows is gone. *)
Theorem apply_corrections_leaves_no_key (s s' : FieldDataProcessor) (t : DataFrame)
    (column_name abs_column : string) :
  (∀ k x, values_to_rename s !! k = Some x → values_to_rename s !! x = None) →
  df s = Some t →
  wf t →
  apply_corrections (Some column_name) (Some abs_column) s = (Return tt, s') →
  ∃ t',
    df s' = Some t' ∧
    ∀ i j v', columns t' !! j = Some column_name → cell t' i j = Some v' →
              lookup_value (values_to_rename s) v' = None.
Proof.
  intros HM Hdf Hwf Hrun.
  destruct (apply_corrections_rewrites s s' t column_name abs_column Hdf Hwf Hrun)
    as (ta & tb & -> & Hia & Hib & Hwfa & Hrel1 & Hrel2).
  exists tb. split; [done |]. intros i j v' Hj Hv'.
  assert (columns tb = columns ta) as Hcols by (by apply (rewrites_columns _ _ _ _ Hrel2)).
  rewrite Hcols in Hj.
  destruct (rewrites_cell_in _ _ _ _ j Hrel2 Hj) as (x & x' & [= <-] & Hd & Hd').
  unfold cell in Hv'. rewrite Hd' in Hv'. simpl in Hv'.
  unfold series_apply in Hv'. rewrite list_lookup_fmap in Hv'.
  destruct (x !! i) as [v|]; [| done]. simpl in Hv'. injection Hv' as <-.
  destruct v as [| z | k | z]; simpl; [done | done | | done].
  destruct (values_to_rename s !! k) as [y|] eqn:Hk; simpl.
  - by rewrite (HM k y Hk).
  - by rewrite Hk.
Qed.

Lemma apply_corrections_leaves_no_key_witness :
  ∃ t',
    df (apply_corrections (Some "Crop_type") (Some "Elevation")
          (with_df labelled_survey (init shipped_config))).2 = Some t' ∧
    ∀ i j v', columns t' !! j = Some "Crop_type" → cell t' i j = Some v' →
              lookup_value (values_to_rename (with_df labelled_survey (init shipped_config)))
                v' = None.
Proof.
  apply (apply_corrections_leaves_no_key (with_df labelled_survey (init shipped_config)) _
           labelled_survey "Crop_type" "Elevation").
  - intros k x. change (values_to_rename _) with (cfg_values_to_rename shipped_config).
    unfold shipped_config, cfg_values_to_rename.
    rewrite !lookup_insert, lookup_singleton.
    repeat case_decide; intros [= <-]; repeat case_decide; subst; done.
  - reflexivity.
  - unfold wf. simpl. repeat constructor.
  - vm_compute. reflexivity.
Defined.

(** ** [weather_station_mapping] and the join behind it *)

Lemma weather_station_mapping_failure (w : World) (s s' : FieldDataProcessor) (e : exn) :
  weather_station_mapping w s = (Raise e, s') →
  df s' = df s ∧
  last (trace s')
  = Some (LogError InstanceLogger
            "Failed to merge weather station mapping data. Error: " (Some e)).
Proof.
  unfold weather_station_mapping, try_except. rewrite bind_get_self. unfold bind at 1.
  destruct (read_from_web_CSV w (weather_map_data s) s) as [[m|e0|] s1] eqn:Hread.
  - apply read_from_web_CSV_only_logs in Hread.
    destruct (df s1) as [t|] eqn:Hdf1.
    + rewrite (bind_self_df _ _ s1 t Hdf1).
      destruct (merge_left t m "Field_ID") as [e1|t'] eqn:Hmerge; simpl.
      * unfold bind, log, raise. intros [= <- <-].
        split; [| apply last_snoc]. simpl. by apply only_logs_df.
      * done.
    + unfold bind at 1. unfold self_df, bind, get_self. rewrite Hdf1. simpl.
      unfold bind, log, raise. intros [= <- <-].
      split; [| apply last_snoc]. simpl. by apply only_logs_df.
  - apply read_from_web_CSV_only_logs in Hread. unfold bind, log, raise.
    intros [= <- <-]. split; [| apply last_snoc]. simpl. by apply only_logs_df.
  - done.
Qed.

(** X16.  However [weather_station_mapping] fails (the fetch, the parse, no
    frame loaded yet, or the merge itself), [self.df] is what it was on
    entry, and the last record of the log is the method's error record for
    the exception it raises. *)
Theorem weather_station_mapping_raises (w : World) (s s' : FieldDataProcessor) (e : exn) :
  weather_station_mapping w s = (Raise e, s') →
  df s' = df s ∧
  last (trace s')
  = Some (LogError InstanceLogger
            "Failed to merge weather station mapping data. Error: " (Some e)).
Proof. apply weather_station_mapping_failure. Qed.

Lemma weather_station_mapping_raises_witness :
  df (weather_station_mapping
        (world_of survey (mkDataFrame 1 [("Weather_station", [VNum 4])]))
        (with_df labelled_survey (init shipped_config))).2
  = df (with_df labelled_survey (init shipped_config)) ∧
  last (trace (weather_station_mapping
                 (world_of survey (mkDataFrame 1 [("Weather_station", [VNum 4])]))
                 (with_df labelled_survey (init shipped_config))).2)
  = Some (LogError InstanceLogger
            "Failed to merge weather station mapping data. Error: "
            (Some (KeyError "Field_ID"))).
Proof.
  apply (weather_station_mapping_raises
           (world_of survey (mkDataFrame 1 [("Weather_station", [VNum 4])]))
           (with_df labelled_survey (init shipped_config))).
  vm_compute. reflexivity.
Defined.



(** The conversion changes no whole number of size up to [2^53]. *)
Lemma float_cell_exact (z : Z) : Z.abs z ≤ 2 ^ 53 → float_cell (VNum z) = VFloat z.
Proof. intros Hz. unfold float_cell, to_float64. by rewrite decide_True. Qed.













Lemma filter_labels (on : string) (d : list (string * list value)) :
  (filter (λ c : string * list value, c.1 ≠ on) d).*1 = filter (λ c, c ≠ on) d.*1.
Proof.
  induction d as [|[c x] d IH]; [done |].
  rewrite fmap_cons, !filter_cons. cbn [fst].
  destruct (decide (c ≠ on)); [rewrite fmap_cons; cbn [fst] |]; by rewrite IH.
Qed.

(** X19.  The frame [weather_station_mapping] leaves is well-formed and has
    the columns of the frame followed by those of the mapping without its
    [Field_ID].  A label of the frame, other than [Field_ID], that the
    mapping also carries is suffixed with [_x]; when there is no such
    label, the labels are exactly the frame's followed by the mapping's
    other labels. *)
Theorem weather_station_mapping_columns (w : World) (s s' : FieldDataProcessor)
    (t : DataFrame) :
  df s = Some t →
  weather_station_mapping w s = (Return tt, s') →
  ∃ m t',
    pd_read_csv w (weather_map_data s) = inr m ∧
    df s' = Some t' ∧ wf t' ∧
    (length (columns t') + 1 = length (columns t) + length (columns m))%nat ∧
    (∀ j c, columns t !! j = Some c → c ≠ "Field_ID" → c ∈ columns m →
            columns t' !! j = Some (c +:+ "_x")) ∧
    ((∀ c, c ∈ columns t → c ∈ columns m → c = "Field_ID") →
     columns t' = columns t ++ filter (λ c, c ≠ "Field_ID") (columns m)).
Proof.
  intros Hdf Hrun.
  apply weather_station_mapping_inv in Hrun as (m & t0 & t' & Hcsv & Hdf0 & Hmerge & Hdf').
  rewrite Hdf in Hdf0. injection Hdf0 as <-.
  apply merge_left_inv in Hmerge as (lk & rk & Hlk & Hrk & ->).
  set (ix := left_join_indexer (float_keys lk rk) lk rk) in *.
  eexists m, _. split; [done |]. split; [exact Hdf' |]. split_and!.
  - unfold wf. simpl. apply Forall_app. split.
    + unfold merge_left_columns. apply Forall_fmap, Forall_forall. intros c _. simpl.
      unfold take_left. by rewrite length_fmap.
    + unfold merge_right_columns. apply Forall_fmap, Forall_forall. intros c _. simpl.
      apply length_take_right.
  - unfold columns. simpl. rewrite !length_fmap, length_app.
    unfold merge_left_columns, merge_right_columns. rewrite !length_fmap.
    pose proof (filter_length_split (λ c : string * list value, c.1 = "Field_ID") (data m))
      as Hsplit.
    assert (length (filter (λ c : string * list value, c.1 = "Field_ID") (data m)) = 1%nat)
      as Hone.
    { unfold getitem in Hrk. apply (f_equal length) in Hrk.
      by rewrite length_fmap in Hrk. }
    change (λ c : string * list value, c.1 ≠ "Field_ID")
      with (λ c : string * list value, ¬ c.1 = "Field_ID"). lia.
  - intros j c Hj Hne Hin. apply columns_lookup in Hj as (x & Hx).
    unfold columns. simpl. rewrite fmap_app, lookup_app_l.
    2:{ unfold merge_left_columns. rewrite !length_fmap. by apply lookup_lt_Some in Hx. }
    unfold merge_left_columns. rewrite !list_lookup_fmap, Hx. simpl.
    by rewrite decide_True.
  - intros Hdisjoint. unfold columns at 1. simpl. rewrite fmap_app. f_equal.
    + unfold merge_left_columns, columns. rewrite <- list_fmap_compose.
      apply Forall_fmap_ext, Forall_forall. intros [c x] Hc. simpl.
      rewrite decide_False; [done |]. intros [Hne Hin]. apply Hne, Hdisjoint; [| done].
      apply list_elem_of_fmap. by exists (c, x).
    + unfold merge_right_columns. rewrite <- list_fmap_compose.
      unfold columns. rewrite <- filter_labels.
      apply Forall_fmap_ext, Forall_forall.
      intros [c x] [Hne Hc]%list_elem_of_filter. simpl in *.
      rewrite decide_False; [done |]. intros Hin. apply Hne, Hdisjoint; [done |].
      apply list_elem_of_fmap. by exists (c, x).
Qed.

Lemma weather_station_mapping_columns_witness :
  ∃ m t',
    pd_read_csv (world_of survey station_map)
      (weather_map_data (with_df labelled_survey (init shipped_config))) = inr m ∧
    df (weather_station_mapping (world_of survey station_map)
          (with_df labelled_survey (init shipped_config))).2 = Some t' ∧
    wf t' ∧
    (length (columns t') + 1
     = length (columns labelled_survey) + length (columns m))%nat ∧
    (∀ j c, columns labelled_survey !! j = Some c → c ≠ "Field_ID" → c ∈ columns m →
            columns t' !! j = Some (c +:+ "_x")) ∧
    ((∀ c, c ∈ columns labelled_survey → c ∈ columns m → c = "Field_ID") →
     columns t' = columns labelled_survey ++ filter (λ c, c ≠ "Field_ID") (columns m)).
Proof.
  apply (weather_station_mapping_columns (world_of survey station_map)
           (with_df labelled_survey (init shipped_config)) _ labelled_survey).
  - reflexivity.
  - vm_compute. reflexivity.
Defined.

(** ** [process] as a whole *)

Lemma rename_wf (m : gmap string string) (t : DataFrame) : wf t → wf (rename m t).
Proof.
  unfold wf, rename. simpl. intros Hwf. apply Forall_fmap.
  eapply Forall_impl; [exact Hwf | done].
Qed.

(** X20.  There is no rollback in [process] either: when the first three
    steps return and the mapping step raises, [process] raises that very
    exception, [self.df] is the frame [apply_corrections] left, and the last
    record of the log is the error record of [process]. *)
Theorem process_fails_at_mapping (w : World) (s s1 s2 s3 s4 : FieldDataProcessor)
    (t : DataFrame) (e : exn) :
  ingest_sql_data w (logged "Starting the data processing pipeline." s) = (Return t, s1) →
  rename_columns (logged "Renaming columns..." s1) = (Return tt, s2) →
  apply_corrections None None (logged "Applying data corrections..." s2) = (Return tt, s3) →
  weather_station_mapping w (logged "Mapping weather station data..." s3) = (Raise e, s4) →
  ∃ s',
    process w s = (Raise e, s') ∧ df s' = df s3 ∧
    last (trace s')
    = Some (LogError InstanceLogger
              "Error occurred during the data processing pipeline: " (Some e)).
Proof.
  intros Hingest Hrename Happly Hmap.
  pose proof (weather_station_mapping_failure _ _ _ _ Hmap) as [Hdf _].
  eexists. unfold process, try_except.
  rewrite bind_log. fold (logged "Starting the data processing pipeline." s).
  unfold bind at 1. rewrite Hingest.
  rewrite bind_log. fold (logged "Renaming columns..." s1).
  unfold bind at 1. rewrite Hrename.
  rewrite bind_log. fold (logged "Applying data corrections..." s2).
  unfold bind at 1. rewrite Happly.
  rewrite bind_log. fold (logged "Mapping weather station data..." s3).
  unfold bind at 1. rewrite Hmap.
  split_and!; [reflexivity | exact Hdf | apply last_snoc].
Qed.

Lemma process_fails_at_mapping_witness :
  ∃ s',
    process world_offline (init shipped_config)
    = (Raise (OtherError "URLError" "Name or service not known"), s') ∧
    df s' = df (apply_corrections None None
                  (logged "Applying data corrections..."
                     (rename_columns
                        (logged "Renaming columns..."
                           (ingest_sql_data world_offline
                              (logged "Starting the data processing pipeline."
                                 (init shipped_config))).2)).2)).2 ∧
    last (trace s')
    = Some (LogError InstanceLogger
              "Error occurred during the data processing pipeline: "
              (Some (OtherError "URLError" "Name or service not known"))).
Proof.
  eapply (process_fails_at_mapping world_offline (init shipped_config)).
  - vm_compute. reflexivity.
  - vm_compute. reflexivity.
  - vm_compute. reflexivity.
  - vm_compute. reflexivity.
Defined.

(** X21.  [process] loses no row: if the database hands out well-formed
    frames and [process] returns, then [self.df] is a well-formed frame
    with at least as many rows as the query produced, hence at least one,
    and at least as many columns. *)
Theorem process_keeps_rows (w : World) (s s' : FieldDataProcessor) :
  (∀ sql eng t0, pd_read_sql_query w sql eng = inr t0 → wf t0) →
  process w s = (Return tt, s') →
  ∃ eng t0 t',
    pd_read_sql_query w (sql_query s) eng = inr t0 ∧
    df s' = Some t' ∧ wf t' ∧
    (index t0 ≤ index t')%nat ∧ (0 < index t')%nat ∧
    (length (columns t0) ≤ length (columns t'))%nat.
Proof.
  intros Hworld Hrun.
  unfold process in Hrun. apply try_except_Return_inv in Hrun; [| by eauto].
  rewrite bind_log in Hrun.
  apply bind_Return_inv in Hrun as (t0 & s1 & Hingest & Hrun).
  rewrite bind_log in Hrun.
  apply bind_Return_inv in Hrun as ([] & s2 & Hrename & Hrun).
  rewrite bind_log in Hrun.
  apply bind_Return_inv in Hrun as ([] & s3 & Happly & Hrun).
  rewrite bind_log in Hrun.
  apply bind_Return_inv in Hrun as ([] & s4 & Hmap & Hrun).
  injection Hrun as <-.
  apply ingest_sql_data_inv in Hingest as (eng & _ & Hq & Hdf1 & _ & Hrows & _).
  change (sql_query (with_record _ s)) with (sql_query s) in Hq.
  pose proof (Hworld _ _ _ Hq) as Hwf0.
  (* the frame after [rename_columns] *)
  destruct (columns_to_rename (with_record (LogInfo InstanceLogger "Renaming columns...") s1))
    as [|[column1 column2] rest] eqn:Hcfg.
  { unfold rename_columns in Hrename.
    by rewrite bind_get_self, Hcfg, bind_raise in Hrename. }
  destruct (rename_columns_runs _ t0 column1 column2 rest Hcfg Hdf1)
    as (temp_name & _ & Hrun2).
  rewrite Hrun2 in Hrename. injection Hrename as <-.
  set (t2 := rename {[temp_name := column2]}
               (rename (<[column2 := column1]> {[column1 := temp_name]}) t0)) in *.
  assert (wf t2) as Hwf2 by (by apply rename_wf, rename_wf).
  assert (index t2 = index t0) as Hi2 by done.
  assert (length (columns t2) = length (columns t0)) as Hc2.
  { unfold t2, columns, rename. simpl. by rewrite !length_fmap. }
  (* the frame after [apply_corrections] *)
  unfold apply_corrections in Happly. simpl in Happly.
  change (bind (correct_sign "Elevation") (λ _, correct_spelling "Crop_type"))
    with (apply_corrections (Some "Crop_type") (Some "Elevation")) in Happly.
  apply (apply_corrections_rewrites _ _ t2) in Happly
    as (ta & t3 & -> & Hia & Hi3 & Hwfa & Hrel1 & Hrel2); [| done | done].
  assert (wf t3) as Hwf3.
  { apply (rewrites_wf _ _ ta t3) in Hrel2; [done | | congruence | done].
    intros x x' [= <-]. unfold series_apply. by rewrite length_fmap. }
  assert (columns t3 = columns t2) as Hc3.
  { unfold columns. rewrite (rewrites_columns _ _ _ _ Hrel2).
    apply (rewrites_columns _ _ _ _ Hrel1). }
  (* the merged frame *)
  apply weather_station_mapping_inv in Hmap as (m & t3' & t' & _ & Hdf3 & Hmerge & Hdf').
  injection Hdf3 as <-.
  apply merge_left_inv in Hmerge as (lk & rk & Hlk & Hrk & ->).
  assert (length lk = index t3) as Hlen.
  { unfold wf in Hwf3. rewrite Forall_forall in Hwf3.
    apply (Hwf3 ("Field_ID", lk)), getitem_elem. rewrite Hlk. left. }
  pose proof (indexer_length (float_keys lk rk) lk rk) as Hix.
  eexists eng, t0, _. split; [done |]. split; [exact Hdf' |]. split_and!.
  - unfold wf. simpl. apply Forall_app. split.
    + unfold merge_left_columns. apply Forall_fmap, Forall_forall. intros c _. simpl.
      unfold take_left. by rewrite length_fmap.
    + unfold merge_right_columns. apply Forall_fmap, Forall_forall. intros c _. simpl.
      apply length_take_right.
  - simpl. lia.
  - simpl. lia.
  - rewrite <- Hc2, <- Hc3. unfold columns. simpl.
    rewrite !length_fmap, length_app. unfold merge_left_columns.
    rewrite length_fmap. lia.
Qed.

Lemma process_keeps_rows_witness :
  ∃ eng t0 t',
    pd_read_sql_query (world_of survey station_map) (sql_query (init shipped_config)) eng
    = inr t0 ∧
    df (process (world_of survey station_map) (init shipped_config)).2 = Some t' ∧
    wf t' ∧
    (index t0 ≤ index t')%nat ∧ (0 < index t')%nat ∧
    (length (columns t0) ≤ length (columns t'))%nat.
Proof.
  apply (process_keeps_rows (world_of survey station_map) (init shipped_config)).
  - intros sql eng t0 [= <-]. unfold wf. simpl. repeat constructor.
  - vm_compute. reflexivity.
Defined.

(** ** [initialize_logging] *)

Section LoggingProperties.
Variable str_upper : string → string.

Lemma initialize_logging_handlers (logging_level : string) (logger : Logger) :
  handlers logger ≠ [] →
  handlers (initialize_logging str_upper logging_level logger) = handlers logger.
Proof.
  intros Hne. unfold initialize_logging, set_level_and_handler. simpl.
  repeat case_decide; simpl; by destruct (handlers logger).
Qed.

Lemma initialize_logging_at_most_one (logging_level : string) (logger : Logger) :
  (length (handlers logger) ≤ 1)%nat →
  (length (handlers (initialize_logging str_upper logging_level logger)) ≤ 1)%nat.
Proof.
  intros Hle. unfold initialize_logging, set_level_and_handler. simpl.
  repeat case_decide; simpl; destruct (handlers logger); simpl in *; lia.
Qed.

Lemma initialize_logging_disabled (logging_level : string) (logger : Logger) :
  disabled logger = true →
  disabled (initialize_logging str_upper logging_level logger) = true.
Proof.
  intros Hd. unfold initialize_logging, set_level_and_handler. simpl.
  repeat case_decide; simpl; by destruct (handlers logger).
Qed.

(** X22.  However many instances are constructed one after the other, with
    whatever logging levels, the logger they share never has more than one
    handler, so no message is printed twice. *)
Theorem one_handler_for_all_instances (levels : list string) :
  (length (handlers (foldl (λ logger lvl, initialize_logging str_upper lvl logger)
                       new_logger levels)) ≤ 1)%nat.
Proof.
  assert (∀ logger, (length (handlers logger) ≤ 1)%nat →
            (length (handlers (foldl (λ logger lvl, initialize_logging str_upper lvl logger)
                                 logger levels)) ≤ 1)%nat) as Hgen.
  { induction levels as [|lvl levels IH]; intros logger Hle; [done |].
    simpl. by apply IH, initialize_logging_at_most_one. }
  apply Hgen. simpl. lia.
Qed.

(** X23.  Once an instance has been constructed with the level [NONE] (in
    any letter case), the shared logger is disabled, and it stays disabled
    for every instance constructed afterwards, whatever its level: the
    method never switches the logger back on. *)
Theorem disabled_logger_stays_disabled (logging_level : string) (levels : list string)
    (logger : Logger) :
  str_upper logging_level = "NONE" →
  disabled (foldl (λ logger lvl, initialize_logging str_upper lvl logger)
              (initialize_logging str_upper logging_level logger) levels) = true.
Proof.
  intros Hnone.
  assert (disabled (initialize_logging str_upper logging_level logger) = true) as Hd.
  { unfold initialize_logging. rewrite Hnone. simpl. done. }
  revert Hd. generalize (initialize_logging str_upper logging_level logger).
  induction levels as [|lvl levels IH]; intros l Hd; [done |].
  simpl. by apply IH, initialize_logging_disabled.
Qed.

(** X24.  A logging level that is none of [DEBUG], [INFO] and [NONE] (in
    any letter case) is not refused: the method treats it exactly as it
    treats [INFO]. *)
Theorem unknown_level_means_INFO (logging_level info_level : string) (logger : Logger) :
  str_upper logging_level ≠ "DEBUG" →
  str_upper logging_level ≠ "NONE" →
  str_upper info_level = "INFO" →
  initialize_logging str_upper logging_level logger
  = initialize_logging str_upper info_level logger.
Proof.
  intros Hd Hn Hi. unfold initialize_logging. rewrite Hi.
  repeat case_decide; done.
Qed.

End LoggingProperties.

Lemma disabled_logger_stays_disabled_witness :
  disabled (foldl (λ logger lvl, initialize_logging upper lvl logger)
              (initialize_logging upper "none" new_logger) ["INFO"; "debug"]) = true.
Proof.
  apply (disabled_logger_stays_disabled upper "none" ["INFO"; "debug"] new_logger).
  reflexivity.
Defined.

Lemma unknown_level_means_INFO_witness :
  initialize_logging upper "verbose" new_logger
  = initialize_logging upper "info" new_logger.
Proof.
  apply (unknown_level_means_INFO upper "verbose" "info" new_logger).
  - discriminate.
  - discriminate.
  - reflexivity.
Defined.
